(** * AdaptEd: the gesture classifier and its confirmation / debounce engine

    A shallow embedding of section 12 ("GESTURE RECOGNITION") of the
    front-end script: [landmarkDist], [classifyGesture],
    [getSmoothedGesture], [executeGestureAction], the body of the
    [hands.onResults] callback and [stopGestureRecognition].

    - JavaScript numbers are IEEE binary64 values: landmark coordinates are
      primitive floats, compared with [ltb] (false on NaN, like JS [<]).
    - [Date.now()] is an integer count of milliseconds: a [Z] handed to the
      functions that read the clock.
    - [landmarks[i].y] on a missing entry throws a TypeError: the classifier
      lives in the option monad, [None] standing for the thrown error.
    - The module-level [let] variables of the script are the fields of one
      record threaded through the stateful functions. *)

(** Beyond that section the file embeds, with properties of their own: the
    section and theme cases of the [switch] of [executeGestureAction]; the
    voice-navigation handler [voiceNavRecognition.onresult] with its table
    [voiceNavSections]; [matchCommand] of the speech module; the classifier
    and the debounce of the stand-alone [GestureModule]
    ([frontend/gesture.js]); and [addGestureLog] of the dashboard script. *)

From Stdlib Require Import PrimFloat.
From stdpp Require Import base option list strings.

Set Warnings "-inexact-float".

Local Open Scope Z_scope.

(** ** Data *)

(** One hand landmark as MediaPipe delivers it; [z] may be absent. *)
Record Landmark := mkLandmark { x : float; y : float; z : option float }.

(** The object literals returned by [classifyGesture]; [action : null] is
    [None]. *)
Record GestureResult :=
  mkGesture { name : string; emoji : string; action : option string }.

(** JS truthiness of a number: [0], [-0] and [NaN] are falsy. *)
Definition truthyNumber (v : float) : bool :=
  negb (PrimFloat.eqb v 0%float) && PrimFloat.eqb v v.

(** [(a.z || 0)] *)
Definition orZero (v : option float) : float :=
  match v with
  | Some n => if truthyNumber n then n else 0%float
  | None => 0%float
  end.

(** JS truthiness of [gesture.action]: [null] and the empty string are
    falsy. *)
Definition truthyAction (a : option string) : bool :=
  match a with
  | Some s => negb (String.eqb s EmptyString)
  | None => false
  end.

(** [v ** 2]: the square, rounded to binary64. *)
Definition sq (v : float) : float := PrimFloat.mul v v.

(** ** The classifier *)

(** [Math.sqrt((a.x - b.x) ** 2 + (a.y - b.y) ** 2 + ((a.z || 0) - (b.z || 0)) ** 2)] *)
Definition landmarkDist (a b : Landmark) : float :=
  PrimFloat.sqrt
    (PrimFloat.add
       (PrimFloat.add (sq (PrimFloat.sub (x a) (x b)))
                      (sq (PrimFloat.sub (y a) (y b))))
       (sq (PrimFloat.sub (orZero (z a)) (orZero (z b))))).

Definition tips : list nat := [8; 12; 16; 20]%nat.
Definition pips : list nat := [6; 10; 14; 18]%nat.
Definition mcps : list nat := [5; 9; 13; 17]%nat.

(** [tips.map((tip, i) => landmarks[tip].y < landmarks[pips[i]].y)] *)
Definition fingersExtendedOf (landmarks : list Landmark) : option (list bool) :=
  mapM (λ it : nat * nat,
          t ← landmarks !! it.2;
          p ← pips !! it.1;
          j ← landmarks !! p;
          Some (PrimFloat.ltb (y t) (y j)))
       (imap pair tips).

(** [Math.abs(landmarks[4].x - landmarks[2].x) > Math.abs(landmarks[3].x - landmarks[2].x)] *)
Definition thumbExtendedOf (landmarks : list Landmark) : option bool :=
  l4 ← landmarks !! 4%nat;
  l2 ← landmarks !! 2%nat;
  l3 ← landmarks !! 3%nat;
  Some (PrimFloat.ltb (PrimFloat.abs (PrimFloat.sub (x l3) (x l2)))
                      (PrimFloat.abs (PrimFloat.sub (x l4) (x l2)))).

(** [landmarks[4].y < landmarks[0].y] *)
Definition thumbPointingUpOf (landmarks : list Landmark) : option bool :=
  l4 ← landmarks !! 4%nat;
  l0 ← landmarks !! 0%nat;
  Some (PrimFloat.ltb (y l4) (y l0)).

(** [fingersExtended.filter(Boolean).length] *)
Definition extendedCountOf (fingersExtended : list bool) : nat :=
  length (List.filter (λ b : bool, b) fingersExtended).

(** [fingersExtended[k]] read as a condition: a missing entry is falsy. *)
Definition finger (fingersExtended : list bool) (k : nat) : bool :=
  default false (fingersExtended !! k).

(** [c && e] where evaluating [e] may throw: [e] runs only when [c] holds. *)
Definition andThen (c : bool) (e : option bool) : option bool :=
  if c then e else Some false.

Definition OpenPalm := mkGesture "Open Palm" "✋" (Some "stop").
Definition ThumbsUp := mkGesture "Thumbs Up" "👍" (Some "confirm").
Definition ThumbsDown := mkGesture "Thumbs Down" "👎" (Some "reject").
Definition Fist := mkGesture "Fist" "✊" (Some "start").
Definition Pinch := mkGesture "Pinch" "🤏" (Some "zoom").
Definition OKSign := mkGesture "OK Sign" "👌" (Some "toggle-theme").
Definition PeaceSign := mkGesture "Peace Sign" "✌️" (Some "scroll").
Definition Pointing := mkGesture "Pointing" "☝️" (Some "point").
Definition ThreeFingers := mkGesture "Three Fingers" "🤟" (Some "scroll-up").
Definition LShape := mkGesture "L-Shape" "👆" (Some "prev-section").
Definition FourFingers := mkGesture "Four Fingers" "🖖" (Some "next-section").
Definition RockOn := mkGesture "Rock On" "🤘" (Some "top").
Definition HangLoose := mkGesture "Hang Loose" "🤙" (Some "bottom").
Definition Unknown := mkGesture "Unknown" "🤚" None.

(** The [if] chain of [classifyGesture], in source order. *)
Definition classifyGesture (landmarks : list Landmark) : option GestureResult :=
  fingersExtended ← fingersExtendedOf landmarks;
  thumbExtended ← thumbExtendedOf landmarks;
  thumbPointingUp ← thumbPointingUpOf landmarks;
  let extendedCount := extendedCountOf fingersExtended in
  if (4 <=? extendedCount)%nat && thumbExtended then Some OpenPalm else
  up ← andThen (thumbExtended && thumbPointingUp && (extendedCount =? 0)%nat)
         (l4 ← landmarks !! 4%nat; l5 ← landmarks !! 5%nat;
          Some (PrimFloat.ltb (y l4) (y l5)));
  if (up : bool) then Some ThumbsUp else
  down ← andThen (thumbExtended && negb thumbPointingUp && (extendedCount =? 0)%nat)
           (l4 ← landmarks !! 4%nat; l3 ← landmarks !! 3%nat;
            Some (PrimFloat.ltb (y l3) (y l4)));
  if (down : bool) then Some ThumbsDown else
  if (extendedCount =? 0)%nat && negb thumbExtended then Some Fist else
  pinchDist ← (l4 ← landmarks !! 4%nat; l8 ← landmarks !! 8%nat;
               Some (landmarkDist l4 l8));
  if PrimFloat.ltb pinchDist 0.06 && negb (finger fingersExtended 1)
     && negb (finger fingersExtended 2) && negb (finger fingersExtended 3)
  then Some Pinch else
  okDist ← (l4 ← landmarks !! 4%nat; l8 ← landmarks !! 8%nat;
            Some (landmarkDist l4 l8));
  if PrimFloat.ltb okDist 0.07 && finger fingersExtended 1
     && finger fingersExtended 2 && finger fingersExtended 3
  then Some OKSign else
  if finger fingersExtended 0 && finger fingersExtended 1
     && negb (finger fingersExtended 2) && negb (finger fingersExtended 3)
  then Some PeaceSign else
  if finger fingersExtended 0 && negb (finger fingersExtended 1)
     && negb (finger fingersExtended 2) && negb (finger fingersExtended 3)
  then Some Pointing else
  if finger fingersExtended 0 && finger fingersExtended 1
     && finger fingersExtended 2 && negb (finger fingersExtended 3)
  then Some ThreeFingers else
  if thumbExtended && finger fingersExtended 0 && negb (finger fingersExtended 1)
     && negb (finger fingersExtended 2) && negb (finger fingersExtended 3)
  then Some LShape else
  if (4 <=? extendedCount)%nat && negb thumbExtended then Some FourFingers else
  if finger fingersExtended 0 && negb (finger fingersExtended 1)
     && negb (finger fingersExtended 2) && finger fingersExtended 3
  then Some RockOn else
  if thumbExtended && negb (finger fingersExtended 0)
     && negb (finger fingersExtended 1) && negb (finger fingersExtended 2)
     && finger fingersExtended 3
  then Some HangLoose else
  Some Unknown.

(** ** The confirmation and debounce engine *)

(** The module-level variables [lastGesture], [gestureDebounce],
    [gestureBuffer] and [confirmedGesture]. *)
Record GestureState := mkState {
  lastGesture : string;
  gestureDebounce : Z;
  gestureBuffer : list string;
  confirmedGesture : option string
}.

(** Their initialisers: [''], [0], [[]] and [null]. *)
Definition initialState : GestureState :=
  mkState EmptyString 0 [] None.

Definition GESTURE_CONFIRM_FRAMES : nat := 3.

(** [confirmedGesture !== currentGesture.name] *)
Definition differsFrom (confirmed : option string) (label : string) : bool :=
  match confirmed with
  | Some c => negb (String.eqb c label)
  | None => true
  end.

(** [getSmoothedGesture]: the returned gesture (or [null]) and the variables
    afterwards. *)
Definition getSmoothedGesture (currentGesture : GestureResult) (st : GestureState)
  : option GestureResult * GestureState :=
  let pushed := gestureBuffer st ++ [name currentGesture] in
  let buffer :=
    if (GESTURE_CONFIRM_FRAMES <? length pushed)%nat then tail pushed else pushed in
  let unchanged :=
    (None, mkState (lastGesture st) (gestureDebounce st) buffer (confirmedGesture st)) in
  if (length buffer =? GESTURE_CONFIRM_FRAMES)%nat
     && forallb (λ g, String.eqb g (name currentGesture)) buffer
  then
    if differsFrom (confirmedGesture st) (name currentGesture)
    then (Some currentGesture,
          mkState (lastGesture st) (gestureDebounce st) buffer
                  (Some (name currentGesture)))
    else unchanged
  else unchanged.

(** [executeGestureAction], with [now] the value of [Date.now()]: [None]
    when the debounce test returns early, otherwise the gesture whose action
    the [switch] dispatches. *)
Definition executeGestureAction (gesture : GestureResult) (now : Z) (st : GestureState)
  : option GestureResult * GestureState :=
  if String.eqb (name gesture) (lastGesture st) && (now - gestureDebounce st <? 800)
  then (None, st)
  else (Some gesture,
        mkState (name gesture) now (gestureBuffer st) (confirmedGesture st)).

(** [gestureBuffer = []; confirmedGesture = null;] *)
Definition clearSmoothing (st : GestureState) : GestureState :=
  mkState (lastGesture st) (gestureDebounce st) [] None.

(** The part of the [onResults] callback that follows
    [const rawGesture = classifyGesture(landmarks)]. *)
Definition onRawGesture (rawGesture : GestureResult) (now : Z) (st : GestureState)
  : option GestureResult * GestureState :=
  if truthyAction (action rawGesture) then
    match getSmoothedGesture rawGesture st with
    | (Some confirmed, st') => executeGestureAction confirmed now st'
    | (None, st') => (None, st')
    end
  else (None, clearSmoothing st).

(** The [hands.onResults] callback on [results.multiHandLandmarks]
    ([None] when the property is undefined). The outer [None] is a throw of
    [classifyGesture]. *)
Definition onResults (multiHandLandmarks : option (list (list Landmark)))
    (now : Z) (st : GestureState)
  : option (option GestureResult * GestureState) :=
  match multiHandLandmarks with
  | Some (landmarks :: _) =>
      rawGesture ← classifyGesture landmarks;
      Some (onRawGesture rawGesture now st)
  | _ => Some (None, clearSmoothing st)
  end.

(** [stopGestureRecognition], on the four variables. *)
Definition stopGestureRecognition (st : GestureState) : GestureState :=
  clearSmoothing st.

(** *** Runs of frames *)

(** What one frame contributes to the engine: no hand, or the raw result of
    the classifier. *)
Inductive Observation :=
  | NoHand
  | Raw (rawGesture : GestureResult).

Definition observe (o : Observation) (now : Z) (st : GestureState)
  : option GestureResult * GestureState :=
  match o with
  | NoHand => (None, clearSmoothing st)
  | Raw rawGesture => onRawGesture rawGesture now st
  end.

(** Feeds the frames in order, each with its clock reading; returns what
    each frame emitted, and the final state. *)
Fixpoint run (frames : list (Observation * Z)) (st : GestureState)
  : list (option GestureResult) * GestureState :=
  match frames with
  | [] => ([], st)
  | (o, now) :: rest =>
      let '(e, st1) := observe o now st in
      let '(es, st2) := run rest st1 in
      (e :: es, st2)
  end.

(** The frames on which something was emitted, numbered from 1. *)
Definition emissions (es : list (option GestureResult)) : list (nat * GestureResult) :=
  omap (λ p : nat * option GestureResult, g ← p.2; Some (S p.1, g)) (imap pair es).

(** A frame that breaks a streak: no hand, or a result with a falsy action. *)
Definition isGap (o : Observation) : bool :=
  match o with
  | NoHand => true
  | Raw g => negb (truthyAction (action g))
  end.

(** ** The ordered rule list of the specification

    The specification describes the classifier as thirteen predicates over
    the features of a hand, tried in order, the first match winning.  This
    module writes that description down; [classifyGesture_firstMatch] below
    relates it to the [if] chain above. *)
Module Rules.

Record Features := mkFeatures {
  extended : list bool;          (* extended[0..3]: index, middle, ring, pinky *)
  thumbExtended : bool;
  thumbPointingUp : bool;
  thumbAboveIndexMcp : bool;     (* thumbTip.y < indexMcp.y *)
  thumbBelowIp : bool;           (* thumbTip.y > thumbIpAdjacent.y *)
  tipDistance : float            (* distance(thumbTip, indexTip) *)
}.

Definition extendedCount (f : Features) : nat := extendedCountOf (extended f).
Definition ext (f : Features) (k : nat) : bool := finger (extended f) k.

Definition PINCH_DISTANCE : float := 0.06.
Definition OK_DISTANCE : float := 0.07.

Definition openPalm f := (4 <=? extendedCount f)%nat && thumbExtended f.
Definition thumbsUp f :=
  thumbExtended f && thumbPointingUp f && (extendedCount f =? 0)%nat
  && thumbAboveIndexMcp f.
Definition thumbsDown f :=
  thumbExtended f && negb (thumbPointingUp f) && (extendedCount f =? 0)%nat
  && thumbBelowIp f.
Definition fist f := (extendedCount f =? 0)%nat && negb (thumbExtended f).
Definition pinch f :=
  PrimFloat.ltb (tipDistance f) PINCH_DISTANCE
  && negb (ext f 1) && negb (ext f 2) && negb (ext f 3).
Definition okSign f :=
  PrimFloat.ltb (tipDistance f) OK_DISTANCE && ext f 1 && ext f 2 && ext f 3.
Definition peaceSign f := ext f 0 && ext f 1 && negb (ext f 2) && negb (ext f 3).
Definition pointing f :=
  ext f 0 && negb (ext f 1) && negb (ext f 2) && negb (ext f 3).
Definition threeFingers f := ext f 0 && ext f 1 && ext f 2 && negb (ext f 3).
Definition lShape f :=
  thumbExtended f && ext f 0 && negb (ext f 1) && negb (ext f 2) && negb (ext f 3).
Definition fourFingers f := (4 <=? extendedCount f)%nat && negb (thumbExtended f).
Definition rockOn f := ext f 0 && negb (ext f 1) && negb (ext f 2) && ext f 3.
Definition hangLoose f :=
  thumbExtended f && negb (ext f 0) && negb (ext f 1) && negb (ext f 2) && ext f 3.

(** Rules 1 to 13, in the documented order. *)
Definition rules : list ((Features → bool) * GestureResult) :=
  [ (openPalm, OpenPalm); (thumbsUp, ThumbsUp); (thumbsDown, ThumbsDown);
    (fist, Fist); (pinch, Pinch); (okSign, OKSign); (peaceSign, PeaceSign);
    (pointing, Pointing); (threeFingers, ThreeFingers); (lShape, LShape);
    (fourFingers, FourFingers); (rockOn, RockOn); (hangLoose, HangLoose) ].

(** First match wins; rule 14 is the fallback. *)
Definition firstMatch (f : Features) : GestureResult :=
  match List.find (λ r : (Features → bool) * GestureResult, r.1 f) rules with
  | Some r => r.2
  | None => Unknown
  end.

(** No rule of the list matches. *)
Definition noMatch (f : Features) : Prop :=
  Forall (λ r : (Features → bool) * GestureResult, r.1 f = false) rules.

End Rules.

(** The features of a hand, each computed by the source expression the
    classifier uses for it; [None] when a landmark they read is missing. *)
Definition featuresOf (landmarks : list Landmark) : option Rules.Features :=
  fingersExtended ← fingersExtendedOf landmarks;
  thumbExtended ← thumbExtendedOf landmarks;
  thumbPointingUp ← thumbPointingUpOf landmarks;
  l3 ← landmarks !! 3%nat;
  l4 ← landmarks !! 4%nat;
  l5 ← landmarks !! 5%nat;
  l8 ← landmarks !! 8%nat;
  Some (Rules.mkFeatures fingersExtended thumbExtended thumbPointingUp
          (PrimFloat.ltb (y l4) (y l5)) (PrimFloat.ltb (y l3) (y l4))
          (landmarkDist l4 l8)).

(** The landmark indices that occur in [classifyGesture]. *)
Definition landmarkIndices : list nat :=
  tips ++ pips ++ [4; 2; 3; 0; 5; 8]%nat.

(** The closed enumeration of action tags. *)
Inductive ActionTag :=
  | stop | confirm | reject | start | zoom | toggle_theme | scroll | point
  | scroll_up | prev_section | next_section | top | bottom | none.

(** The tag an [action] field stands for: each action string is its tag,
    and the absent action ([null]) is the tag [none].  Any other string is
    outside the enumeration. *)
Definition actionTag (a : option string) : option ActionTag :=
  match a with
  | None => Some none
  | Some s =>
      if String.eqb s "stop" then Some stop
      else if String.eqb s "confirm" then Some confirm
      else if String.eqb s "reject" then Some reject
      else if String.eqb s "start" then Some start
      else if String.eqb s "zoom" then Some zoom
      else if String.eqb s "toggle-theme" then Some toggle_theme
      else if String.eqb s "scroll" then Some scroll
      else if String.eqb s "point" then Some point
      else if String.eqb s "scroll-up" then Some scroll_up
      else if String.eqb s "prev-section" then Some prev_section
      else if String.eqb s "next-section" then Some next_section
      else if String.eqb s "top" then Some top
      else if String.eqb s "bottom" then Some bottom
      else None
  end.

(** ** Sample hands *)

Definition pt (px py : float) : Landmark := mkLandmark px py (Some 0%float).

(** Twenty-one copies of the centre point: every finger curled, thumb
    tucked. *)
Definition flatHand : list Landmark := replicate 21 (pt 0.5 0.5).

(** Index finger up, thumb spread sideways, other fingers curled. *)
Definition pointingHand : list Landmark :=
  <[8%nat := pt 0.5 0.25]> (<[4%nat := pt 0.25 0.5]> flatHand).

(** As [pointingHand], with the thumb tip brought onto the index tip. *)
Definition pinchedPointingHand : list Landmark :=
  <[8%nat := pt 0.5 0.25]> (<[4%nat := pt 0.5 0.25]> (<[3%nat := pt 0.75 0.5]> (<[2%nat := pt 0.75 0.5]> flatHand))).

(** Only the middle finger up, thumb spread: no rule applies. *)
Definition middleFingerHand : list Landmark :=
  <[12%nat := pt 0.5 0.25]> (<[4%nat := pt 0.25 0.5]> flatHand).

(** All four fingers up and the thumb spread. *)
Definition openHand : list Landmark :=
  <[8%nat := pt 0.5 0.25]> (<[12%nat := pt 0.5 0.25]> (<[16%nat := pt 0.5 0.25]>
    (<[20%nat := pt 0.5 0.25]> (<[4%nat := pt 0.25 0.5]> flatHand)))).

(** Further sample hands, one per result of the classifier. *)

(** The fingertip [i] raised above its joint. *)
Definition raised (i : nat) (hand : list Landmark) : list Landmark :=
  <[i := pt 0.5 0.25]> hand.

(** Thumb tip out to the side and above the wrist. *)
Definition thumbsUpHand : list Landmark := <[4%nat := pt 0.25 0.25]> flatHand.

(** Thumb tip out to the side and below the wrist. *)
Definition thumbsDownHand : list Landmark := <[4%nat := pt 0.25 0.75]> flatHand.

(** Middle, ring and pinky up; index tip resting on the thumb tip. *)
Definition okHand : list Landmark := raised 12 (raised 16 (raised 20 flatHand)).

Definition peaceHand : list Landmark := raised 8 (raised 12 flatHand).

Definition threeFingersHand : list Landmark := raised 8 (raised 12 (raised 16 flatHand)).

Definition fourFingersHand : list Landmark :=
  raised 8 (raised 12 (raised 16 (raised 20 flatHand))).

Definition rockOnHand : list Landmark := raised 8 (raised 20 flatHand).

Definition hangLooseHand : list Landmark :=
  raised 20 (<[4%nat := pt 0.25 0.5]> flatHand).

(** The results [classifyGesture] can return. *)
Definition reachableGestures : list GestureResult :=
  [OpenPalm; ThumbsUp; ThumbsDown; Fist; Pinch; OKSign; PeaceSign; Pointing;
   ThreeFingers; FourFingers; RockOn; HangLoose; Unknown].

(** A frame that carries the label [n] into the window: a raw result named
    [n] whose action is truthy. *)
Definition carries (fr : Observation * Z) (n : string) : Prop :=
  ∃ g, fr.1 = Raw g ∧ truthyAction (action g) = true ∧ name g = n.

(** The window holds the labels of the last frames of [frames], in order. *)
Definition windowOf (frames : list (Observation * Z)) (buffer : list string) : Prop :=
  ∃ pre suf, frames = pre ++ suf ∧ Forall2 carries suf buffer.

(** ** The [switch] of [executeGestureAction]: section and theme cases *)

(** [currentSectionIndex] is an integer or, after a division by zero,
    NaN ([None]).  [a % n] for an array length [n]: the remainder takes the
    sign of the dividend, and [a % 0] is NaN. *)
Definition jsRem (a : option Z) (n : nat) : option Z :=
  v ← a; if (n =? 0)%nat then None else Some (Z.rem v (Z.of_nat n)).

(** [allSections[i]]: [undefined] off the list and at NaN.  The sections
    are written as their [id]s. *)
Definition sectionAt (allSections : list string) (i : option Z) : option string :=
  v ← i; if v <? 0 then None else allSections !! Z.to_nat v.

(** [case 'next-section':] the new [currentSectionIndex] and, when
    [allSections] has an entry there, the section scrolled into view with
    the status text. *)
Definition nextSectionCase (allSections : list string) (currentSectionIndex : option Z)
  : option Z * option (string * string) :=
  let index := jsRem ((λ v, v + 1) <$> currentSectionIndex) (length allSections) in
  (index,
   nextSection ← sectionAt allSections index;
   Some (nextSection, String.append "🖖 Next section: " nextSection)).

(** [case 'prev-section':] likewise. *)
Definition prevSectionCase (allSections : list string) (currentSectionIndex : option Z)
  : option Z * option (string * string) :=
  let index :=
    jsRem ((λ v, v - 1 + Z.of_nat (length allSections)) <$> currentSectionIndex)
          (length allSections) in
  (index,
   prevSection ← sectionAt allSections index;
   Some (prevSection, String.append "👆 Previous section: " prevSection)).

(** [case 'toggle-theme':] the value written to [data-theme], from the
    value read ([None] when the attribute is absent). *)
Definition toggleThemeCase (current : option string) : string :=
  match current with
  | Some c =>
      if String.eqb c "dark" then "light"
      else if String.eqb c "light" then "high-contrast"
      else "dark"
  | None => "dark"
  end.

(** The [case] labels of the [switch], in source order. *)
Definition switchCases : list string :=
  ["stop"; "start"; "confirm"; "reject"; "scroll"; "scroll-up"; "top"; "bottom";
   "point"; "zoom"; "next-section"; "prev-section"; "toggle-theme"].

(** ** The stand-alone gesture module ([frontend/gesture.js]) *)
Module GestureModule.

(** The three gesture strings the module returns. *)
Inductive Gesture := open_palm | fist | two_fingers.

(** The fields [lastGesture] (initially [null]) and [lastGestureTime]. *)
Record State := mkState { lastGesture : option Gesture; lastGestureTime : Z }.

Definition initial : State := mkState None 0.

Definition DEBOUNCE_MS : Z := 1200.

(** [const isUp = (tip, pip) => tip.y < pip.y], on array reads that may be
    [undefined]: reading [.y] of [undefined] throws. *)
Definition isUp (tip pip : option Landmark) : option bool :=
  t ← tip; p ← pip; Some (PrimFloat.ltb (y t) (y p)).

(** [classifyGesture]: the outer [None] is a throw, the inner one the
    returned [null]. *)
Definition classifyGesture (landmarks : list Landmark) : option (option Gesture) :=
  let indexTip := landmarks !! 8%nat in
  let middleTip := landmarks !! 12%nat in
  let ringTip := landmarks !! 16%nat in
  let pinkyTip := landmarks !! 20%nat in
  let indexPip := landmarks !! 6%nat in
  let middlePip := landmarks !! 10%nat in
  let ringPip := landmarks !! 14%nat in
  let pinkyPip := landmarks !! 18%nat in
  indexUp ← isUp indexTip indexPip;
  middleUp ← isUp middleTip middlePip;
  ringUp ← isUp ringTip ringPip;
  pinkyUp ← isUp pinkyTip pinkyPip;
  if indexUp && middleUp && ringUp && pinkyUp then Some (Some open_palm)
  else if negb indexUp && negb middleUp && negb ringUp && negb pinkyUp
       then Some (Some fist)
  else if indexUp && middleUp && negb ringUp && negb pinkyUp
       then Some (Some two_fingers)
  else Some None.

(** [gesture === this.lastGesture] *)
Definition sameGesture (a : Gesture) (b : option Gesture) : bool :=
  match a, b with
  | open_palm, Some open_palm | fist, Some fist | two_fingers, Some two_fingers => true
  | _, _ => false
  end.

(** [GESTURE_MAP[gesture].action] *)
Definition gestureAction (g : Gesture) : string :=
  match g with
  | open_palm => "next"
  | fist => "pause"
  | two_fingers => "repeat"
  end.

(** [handleGesture] with [now] for [Date.now()]: [None] on the early
    return, otherwise the gesture handed on with its action. *)
Definition handleGesture (gesture : Gesture) (now : Z) (st : State)
  : option (Gesture * string) * State :=
  if sameGesture gesture (lastGesture st) && (now - lastGestureTime st <? DEBOUNCE_MS)
  then (None, st)
  else (Some (gesture, gestureAction gesture), mkState (Some gesture) now).

End GestureModule.

(** ** The gesture log of the dashboard ([addGestureLog]) *)

(** A child node of the log element: a text node, the placeholder element,
    or an entry element with its time text and label. *)
Inductive LogNode :=
  | LogText
  | LogPlaceholder
  | LogEntry (time label : string).

Definition isPlaceholder (c : LogNode) : bool :=
  match c with LogPlaceholder => true | _ => false end.

Definition isElement (c : LogNode) : bool :=
  match c with LogText => false | _ => true end.

(** [log.children.length]: the element children. *)
Definition childrenLength (nodes : list LogNode) : nat :=
  length (List.filter isElement nodes).

(** [log.querySelector('.log-placeholder')] followed by [remove()]: the
    first placeholder, if any, is taken out. *)
Fixpoint removePlaceholder (nodes : list LogNode) : list LogNode :=
  match nodes with
  | [] => []
  | c :: rest => if isPlaceholder c then rest else c :: removePlaceholder rest
  end.

(** [while (log.children.length > 10) log.removeChild(log.lastChild)]: each
    turn removes the last node, so the number of nodes bounds the turns. *)
Fixpoint trimLog (turns : nat) (nodes : list LogNode) : list LogNode :=
  match turns with
  | O => nodes
  | S k =>
      if (10 <? childrenLength nodes)%nat then trimLog k (removelast nodes) else nodes
  end.

(** [addGestureLog(label)] on the child nodes of an existing log element;
    [time] is the text of [new Date().toLocaleTimeString()]. *)
Definition addGestureLog (time label : string) (nodes : list LogNode)
  : list LogNode :=
  let prepended := LogEntry time label :: removePlaceholder nodes in
  trimLog (length prepended) prepended.

(** ** Voice commands *)

(** [s.startsWith(sub)] *)
Fixpoint startsWith (s sub : string) {struct sub} : bool :=
  match sub, s with
  | EmptyString, _ => true
  | String c sub', String d s' => Ascii.eqb c d && startsWith s' sub'
  | String _ _, EmptyString => false
  end.

(** [s.includes(sub)]; for a pattern that is an alternation of literal
    strings, [regex.test(s)] is [includes] of one of them. *)
Fixpoint includes (s sub : string) : bool :=
  startsWith s sub
  || match s with
     | EmptyString => false
     | String _ s' => includes s' sub
     end.

(** [/a|b|c/.test(command)] for literal alternatives. *)
Definition testAny (alternatives : list string) (command : string) : bool :=
  existsb (includes command) alternatives.

(** The object [voiceNavSections], as its entries in insertion order. *)
Definition voiceNavSections : list (string * string) :=
  [ ("features", "#features");
    ("speech", "#speech-to-text");
    ("speech to text", "#speech-to-text");
    ("text to speech", "#text-to-speech");
    ("tts", "#text-to-speech");
    ("adaptive", "#adaptive-ui");
    ("adaptive ui", "#adaptive-ui");
    ("voice", "#voice-nav");
    ("voice navigation", "#voice-nav");
    ("eye", "#eye-tracking");
    ("eye tracking", "#eye-tracking");
    ("summarizer", "#ai-summarizer");
    ("ai summarizer", "#ai-summarizer");
    ("summarize", "#ai-summarizer");
    ("caption", "#auto-caption");
    ("captions", "#auto-caption");
    ("auto caption", "#auto-caption");
    ("home", "#hero");
    ("top", "#hero") ].

(** What the voice-navigation handler does with a command. *)
Inductive VoiceNavOutcome :=
  | ScrollDown
  | ScrollUp
  | GoToBottom
  | GoToTop
  | StopVoiceNav
  | Navigated (key selector : string)
  | UnknownCommand.

(** The body of [voiceNavRecognition.onresult] after [command] has been
    computed (lower-cased and trimmed); [present selector] tells whether
    [document.querySelector(selector)] finds an element. *)
Definition voiceNavCommand (present : string → bool) (command : string)
  : VoiceNavOutcome :=
  if testAny ["scroll down"; "move down"; "go down"; "page down"] command then ScrollDown
  else if testAny ["scroll up"; "move up"; "go up"; "page up"] command then ScrollUp
  else if testAny ["go to bottom"; "scroll to bottom"; "bottom of page"; "footer"] command
       then GoToBottom
  else if testAny ["go to top"; "scroll to top"; "top of page"; "header"] command
       then GoToTop
  else if testAny ["stop listening"; "stop voice"; "turn off voice"] command
       then StopVoiceNav
  else
    match List.find (λ entry : string * string, includes command entry.1)
                    voiceNavSections with
    | Some (key, selector) =>
        if present selector then Navigated key selector else UnknownCommand
    | None => UnknownCommand
    end.

(** The table [COMMANDS] of the speech module's [matchCommand]. *)
Definition COMMANDS : list (list string * string) :=
  [ (["summarize"; "summary"; "sum up"], "summarize");
    (["read"; "read aloud"; "speak"; "read out"], "read");
    (["next"; "go next"; "forward"], "next");
    (["stop"; "pause"; "halt"; "cancel"], "stop");
    (["repeat"; "again"; "say again"], "repeat");
    (["scroll down"; "go down"], "scroll_down");
    (["scroll up"; "go up"], "scroll_up");
    (["contrast"; "high contrast"], "toggle_contrast");
    (["simplify"; "make simple"; "easy"], "simplify");
    (["clear"; "erase"], "clear") ].

(** The two nested loops of [matchCommand] over [COMMANDS], on [text], the
    lower-cased and trimmed transcript: the action and the keyword of the
    first keyword, in table order, that [text] includes. *)
Fixpoint matchKeywords (text : string) (keywords : list string) (theAction : string)
  : option (string * string) :=
  match keywords with
  | [] => None
  | keyword :: rest =>
      if includes text keyword then Some (theAction, keyword)
      else matchKeywords text rest theAction
  end.

Fixpoint matchCommands (text : string) (commands : list (list string * string))
  : option (string * string) :=
  match commands with
  | [] => None
  | (keywords, theAction) :: rest =>
      match matchKeywords text keywords theAction with
      | Some r => Some r
      | None => matchCommands text rest
      end
  end.

Definition matchCommand (text : string) : option (string * string) :=
  matchCommands text COMMANDS.

(** The keys of [voiceNavSections] a command can be navigated by. *)
Definition liveKeys : list string :=
  ["features"; "speech"; "tts"; "adaptive"; "voice"; "eye"; "summarizer";
   "summarize"; "caption"; "home"; "top"].

(** The keywords of [COMMANDS] that [matchCommand] can report. *)
Definition liveKeywords : list string :=
  ["summarize"; "summary"; "sum up"; "read"; "speak"; "next"; "forward"; "stop";
   "pause"; "halt"; "cancel"; "repeat"; "again"; "scroll down"; "go down";
   "scroll up"; "go up"; "contrast"; "simplify"; "make simple"; "easy"; "clear";
   "erase"].

(** Splits on the [includes] tests of [H], outermost first. *)
Ltac walk_includes H :=
  lazymatch type of H with
  | context [if includes ?c ?k then _ else _] =>
      let E := fresh "E" in
      destruct (includes c k) eqn:E; [ | walk_includes H ]
  | _ => idtac
  end.

(** ** Successive confirmations *)

(** Successive calls of [executeGestureAction], each confirmed gesture with
    the clock reading of its call; returns what each call dispatched. *)
Fixpoint executeAll (calls : list (GestureResult * Z)) (st : GestureState)
  : list (option GestureResult) * GestureState :=
  match calls with
  | [] => ([], st)
  | (gesture, now) :: rest =>
      let '(e, st1) := executeGestureAction gesture now st in
      let '(es, st2) := executeAll rest st1 in
      (e :: es, st2)
  end.

(** No call repeats the label of the call before it, [last] being the label
    dispatched before the first call. *)
Fixpoint alternating (last : string) (calls : list (GestureResult * Z)) : Prop :=
  match calls with
  | [] => True
  | (gesture, _) :: rest => name gesture ≠ last ∧ alternating (name gesture) rest
  end.

(** ** Proof automation *)

(** Evaluates a run over symbolic labels: computes, and decides the label
    comparisons from the hypotheses in scope. *)
Ltac engine_eval :=
  repeat (progress (
    cbn -[String.eqb Z.ltb Z.sub];
    rewrite ?String.eqb_refl;
    repeat match goal with
           | H : String.eqb _ _ = _ |- _ => rewrite H
           | H : truthyAction _ = _ |- _ => rewrite H
           end)).

(** ** The classifier: helper lemmas *)

(** The four finger tests, spelled out. *)
Lemma fingersExtendedOf_Some (landmarks : list Landmark) (fe : list bool) :
  fingersExtendedOf landmarks = Some fe →
  ∃ t8 p6 t12 p10 t16 p14 t20 p18,
    landmarks !! 8%nat = Some t8 ∧ landmarks !! 6%nat = Some p6 ∧
    landmarks !! 12%nat = Some t12 ∧ landmarks !! 10%nat = Some p10 ∧
    landmarks !! 16%nat = Some t16 ∧ landmarks !! 14%nat = Some p14 ∧
    landmarks !! 20%nat = Some t20 ∧ landmarks !! 18%nat = Some p18 ∧
    fe = [PrimFloat.ltb (y t8) (y p6); PrimFloat.ltb (y t12) (y p10);
          PrimFloat.ltb (y t16) (y p14); PrimFloat.ltb (y t20) (y p18)].
Proof.
  unfold fingersExtendedOf. cbn.
  intros H.
  destruct (landmarks !! 8%nat) as [t8|]; [|discriminate].
  destruct (landmarks !! 6%nat) as [p6|]; [|discriminate].
  destruct (landmarks !! 12%nat) as [t12|]; [|discriminate].
  destruct (landmarks !! 10%nat) as [p10|]; [|discriminate].
  destruct (landmarks !! 16%nat) as [t16|]; [|discriminate].
  destruct (landmarks !! 14%nat) as [p14|]; [|discriminate].
  destruct (landmarks !! 20%nat) as [t20|]; [|discriminate].
  destruct (landmarks !! 18%nat) as [p18|]; [|discriminate].
  cbn in H. injection H as <-.
  by exists t8, p6, t12, p10, t16, p14, t20, p18.
Qed.

(** A list of 21 landmarks has an entry at every index the classifier
    reads. *)
Lemma hand_lookup (landmarks : list Landmark) (i : nat) :
  length landmarks = 21%nat → (i < 21)%nat → ∃ l, landmarks !! i = Some l.
Proof.
  intros Hlen Hi. apply lookup_lt_is_Some_2. rewrite Hlen. exact Hi.
Qed.

Lemma fingersExtendedOf_total (landmarks : list Landmark) :
  length landmarks = 21%nat → ∃ fe, fingersExtendedOf landmarks = Some fe.
Proof.
  intros Hlen. unfold fingersExtendedOf. cbn.
  destruct (hand_lookup landmarks 8 Hlen) as [? ->]; [lia|].
  destruct (hand_lookup landmarks 6 Hlen) as [? ->]; [lia|].
  destruct (hand_lookup landmarks 12 Hlen) as [? ->]; [lia|].
  destruct (hand_lookup landmarks 10 Hlen) as [? ->]; [lia|].
  destruct (hand_lookup landmarks 16 Hlen) as [? ->]; [lia|].
  destruct (hand_lookup landmarks 14 Hlen) as [? ->]; [lia|].
  destruct (hand_lookup landmarks 20 Hlen) as [? ->]; [lia|].
  destruct (hand_lookup landmarks 18 Hlen) as [? ->]; [lia|].
  cbn. eauto.
Qed.

Lemma featuresOf_total (landmarks : list Landmark) :
  length landmarks = 21%nat → ∃ f, featuresOf landmarks = Some f.
Proof.
  intros Hlen. unfold featuresOf, thumbExtendedOf, thumbPointingUpOf.
  destruct (fingersExtendedOf_total landmarks Hlen) as [fe ->].
  destruct (hand_lookup landmarks 0 Hlen) as [? ->]; [lia|].
  destruct (hand_lookup landmarks 2 Hlen) as [? ->]; [lia|].
  destruct (hand_lookup landmarks 3 Hlen) as [? ->]; [lia|].
  destruct (hand_lookup landmarks 4 Hlen) as [? ->]; [lia|].
  destruct (hand_lookup landmarks 5 Hlen) as [? ->]; [lia|].
  destruct (hand_lookup landmarks 8 Hlen) as [? ->]; [lia|].
  cbn. eauto.
Qed.

(** The classifier throws on any hand shorter than 21 landmarks: the read
    of [landmarks[20]] in the finger tests fails. *)
Lemma classifyGesture_short (landmarks : list Landmark) :
  (length landmarks < 21)%nat → classifyGesture landmarks = None.
Proof.
  intros Hlen. unfold classifyGesture.
  destruct (fingersExtendedOf landmarks) as [fe|] eqn:Hfe; [|reflexivity].
  apply fingersExtendedOf_Some in Hfe
    as (? & ? & ? & ? & ? & ? & t20 & ? & _ & _ & _ & _ & _ & _ & H20 & _).
  apply lookup_lt_Some in H20. lia.
Qed.

(** Refinement: on every hand whose features can be read, the [if] chain
    of the source returns what the ordered rule list of the specification
    selects. *)
Lemma classifyGesture_firstMatch (landmarks : list Landmark) (f : Rules.Features) :
  featuresOf landmarks = Some f →
  classifyGesture landmarks = Some (Rules.firstMatch f).
Proof.
  unfold featuresOf, classifyGesture. intros H.
  destruct (fingersExtendedOf landmarks) as [fe|] eqn:Hfe; [|discriminate].
  destruct (thumbExtendedOf landmarks) as [te|]; [|discriminate].
  destruct (thumbPointingUpOf landmarks) as [tu|]; [|discriminate].
  cbn -[landmarkDist] in H.
  destruct (landmarks !! 3%nat) as [l3|]; [|discriminate].
  destruct (landmarks !! 4%nat) as [l4|]; [|discriminate].
  destruct (landmarks !! 5%nat) as [l5|]; [|discriminate].
  destruct (landmarks !! 8%nat) as [l8|]; [|discriminate].
  cbn -[landmarkDist] in H. injection H as <-.
  apply fingersExtendedOf_Some in Hfe
    as (? & ? & ? & ? & ? & ? & ? & ? & _ & _ & _ & _ & _ & _ & _ & _ & ->).
  unfold Rules.firstMatch, Rules.rules, Rules.openPalm, Rules.thumbsUp,
    Rules.thumbsDown, Rules.fist, Rules.pinch, Rules.okSign, Rules.peaceSign,
    Rules.pointing, Rules.threeFingers, Rules.lShape, Rules.fourFingers,
    Rules.rockOn, Rules.hangLoose, Rules.extendedCount, Rules.ext,
    Rules.PINCH_DISTANCE, Rules.OK_DISTANCE.
  cbn -[landmarkDist].
  generalize (landmarkDist l4 l8). intros d.
  destruct (PrimFloat.ltb d 0.06), (PrimFloat.ltb d 0.07),
    (PrimFloat.ltb (y l4) (y l5)), (PrimFloat.ltb (y l3) (y l4)),
    (PrimFloat.ltb _ _), (PrimFloat.ltb _ _), (PrimFloat.ltb _ _),
    (PrimFloat.ltb _ _), te, tu; reflexivity.
Qed.

Lemma featuresOf_extended (landmarks : list Landmark) (f : Rules.Features) :
  featuresOf landmarks = Some f →
  ∃ a b c d : bool, Rules.extended f = [a; b; c; d].
Proof.
  unfold featuresOf. intros H.
  destruct (fingersExtendedOf landmarks) as [fe|] eqn:Hfe; [|discriminate].
  apply fingersExtendedOf_Some in Hfe
    as (? & ? & ? & ? & ? & ? & ? & ? & _ & _ & _ & _ & _ & _ & _ & _ & ->).
  destruct (thumbExtendedOf landmarks); [|discriminate].
  destruct (thumbPointingUpOf landmarks); [|discriminate].
  cbn -[landmarkDist] in H.
  destruct (landmarks !! 3%nat); [|discriminate].
  destruct (landmarks !! 4%nat); [|discriminate].
  destruct (landmarks !! 5%nat); [|discriminate].
  destruct (landmarks !! 8%nat); [|discriminate].
  cbn -[landmarkDist] in H. injection H as <-. cbn. eauto.
Qed.

(** Whatever the rule list selects is one of the fourteen results. *)
Lemma firstMatch_cases (f : Rules.Features) :
  In (Rules.firstMatch f) (map snd Rules.rules ++ [Unknown]).
Proof.
  unfold Rules.firstMatch.
  destruct (find _ Rules.rules) as [r|] eqn:Hr.
  - apply find_some in Hr as [Hin _].
    apply in_or_app. left. apply in_map. exact Hin.
  - apply in_or_app. right. left. reflexivity.
Qed.

Lemma noMatch_firstMatch (f : Rules.Features) :
  Rules.noMatch f → Rules.firstMatch f = Unknown.
Proof.
  unfold Rules.noMatch, Rules.firstMatch. intros Hno.
  induction Hno as [|r rs Hr _ IH]; [reflexivity|].
  cbn [find]. rewrite Hr. exact IH.
Qed.

(** ** The classifier: the claims *)

(** C2 (as stated, refuted): a hand with only the index finger extended
    and the thumb extended satisfies the Pointing and the L-Shape
    predicates, yet when its thumb tip lies on its index tip the
    classifier answers "Pinch" (rule 5), not "Pointing". *)
Lemma pointing_lshape_hand_classified_pinch :
  length pinchedPointingHand = 21%nat ∧
  Rules.extended <$> featuresOf pinchedPointingHand = Some [true; false; false; false] ∧
  Rules.thumbExtended <$> featuresOf pinchedPointingHand = Some true ∧
  Rules.pointing <$> featuresOf pinchedPointingHand = Some true ∧
  Rules.lShape <$> featuresOf pinchedPointingHand = Some true ∧
  classifyGesture pinchedPointingHand = Some Pinch ∧
  classifyGesture pinchedPointingHand ≠ Some Pointing.
Proof.
  assert (Hc : classifyGesture pinchedPointingHand = Some Pinch)
    by (vm_compute; reflexivity).
  repeat split; try (vm_compute; reflexivity).
  rewrite Hc. discriminate.
Qed.

(** C2 (amended): every hand that satisfies both the Pointing and the
    L-Shape predicates and whose thumb tip is not within the pinch distance
    of its index tip is classified "Pointing" with action "point": rule 8
    is reached before rule 10. *)
Theorem pointing_precedes_lshape (landmarks : list Landmark) (f : Rules.Features) :
  featuresOf landmarks = Some f →
  Rules.pointing f = true →
  Rules.lShape f = true →
  PrimFloat.ltb (Rules.tipDistance f) Rules.PINCH_DISTANCE = false →
  classifyGesture landmarks = Some (mkGesture "Pointing" "☝️" (Some "point")).
Proof.
  intros Hf Hp Hl Hd.
  rewrite (classifyGesture_firstMatch _ _ Hf). f_equal.
  destruct (featuresOf_extended _ _ Hf) as (a & b & c & d & He).
  destruct f as [e te tu up dn dist]. cbn in He. subst e.
  unfold Rules.pointing, Rules.lShape, Rules.ext in Hp, Hl. cbn in Hp, Hl, Hd.
  unfold Rules.firstMatch, Rules.rules, Rules.openPalm, Rules.thumbsUp,
    Rules.thumbsDown, Rules.fist, Rules.pinch, Rules.okSign, Rules.peaceSign,
    Rules.pointing, Rules.extendedCount, Rules.ext.
  cbn. rewrite Hd.
  destruct a, b, c, d, te; try discriminate.
  destruct tu, up, dn, (PrimFloat.ltb dist Rules.OK_DISTANCE); reflexivity.
Qed.

Lemma pointing_precedes_lshape_witness :
  classifyGesture pointingHand = Some (mkGesture "Pointing" "☝️" (Some "point")).
Proof.
  apply (pointing_precedes_lshape pointingHand
           (Rules.mkFeatures [true; false; false; false] true false false false
              (landmarkDist (pt 0.25 0.5) (pt 0.5 0.25))));
    vm_compute; reflexivity.
Defined.

(** C6: every hand with [extendedCount >= 4] and [thumbExtended] is
    classified "Open Palm" with action "stop", whatever its other features
    are: rule 1 is tried first. *)
Theorem open_palm_first (landmarks : list Landmark) (f : Rules.Features) :
  featuresOf landmarks = Some f →
  (4 ≤ Rules.extendedCount f)%nat →
  Rules.thumbExtended f = true →
  classifyGesture landmarks = Some (mkGesture "Open Palm" "✋" (Some "stop")).
Proof.
  intros Hf Hc Ht.
  rewrite (classifyGesture_firstMatch _ _ Hf). f_equal.
  unfold Rules.firstMatch, Rules.rules. cbn [find fst snd].
  unfold Rules.openPalm at 1. rewrite Ht.
  apply Nat.leb_le in Hc. rewrite Hc. reflexivity.
Qed.

Lemma open_palm_first_witness :
  classifyGesture openHand = Some (mkGesture "Open Palm" "✋" (Some "stop")).
Proof.
  apply (open_palm_first openHand
           (Rules.mkFeatures [true; true; true; true] true false false false
              (landmarkDist (pt 0.25 0.5) (pt 0.5 0.25)))).
  - vm_compute. reflexivity.
  - vm_compute. lia.
  - reflexivity.
Defined.

(** C7: on every well-formed hand the classifier returns a result whose
    action is a tag of the closed enumeration (the absent action being the
    tag none), and when no rule of the list matches the result is
    "Unknown" with the tag none. *)
Theorem classifier_actions_closed (landmarks : list Landmark) :
  length landmarks = 21%nat →
  ∃ f g,
    featuresOf landmarks = Some f ∧
    classifyGesture landmarks = Some g ∧
    (∃ t, actionTag (action g) = Some t) ∧
    (Rules.noMatch f →
       g = mkGesture "Unknown" "🤚" None ∧ actionTag (action g) = Some none).
Proof.
  intros Hlen.
  destruct (featuresOf_total landmarks Hlen) as [f Hf].
  exists f, (Rules.firstMatch f).
  split; [exact Hf|].
  split; [exact (classifyGesture_firstMatch _ _ Hf)|].
  split.
  - pose proof (firstMatch_cases f) as Hin. cbn in Hin.
    repeat (destruct Hin as [<- | Hin]; [cbn; eauto|]).
    destruct Hin.
  - intros Hno. rewrite (noMatch_firstMatch f Hno). split; reflexivity.
Qed.

Lemma classifier_actions_closed_witness :
  ∃ f g,
    featuresOf middleFingerHand = Some f ∧
    classifyGesture middleFingerHand = Some g ∧
    (∃ t, actionTag (action g) = Some t) ∧
    (Rules.noMatch f →
       g = mkGesture "Unknown" "🤚" None ∧ actionTag (action g) = Some none).
Proof.
  apply (classifier_actions_closed middleFingerHand). reflexivity.
Defined.

(** The sample hand of the witness really is one that no rule matches. *)
Example middleFingerHand_unknown :
  classifyGesture middleFingerHand = Some Unknown ∧
  ∃ f, featuresOf middleFingerHand = Some f ∧ Rules.noMatch f.
Proof.
  split; [vm_compute; reflexivity|].
  eexists. split; [vm_compute; reflexivity|].
  unfold Rules.noMatch, Rules.rules.
  repeat (constructor; [vm_compute; reflexivity|]). constructor.
Qed.

(** C9: on a hand of exactly 21 landmarks [classifyGesture] returns a
    result and does not throw; every landmark index it reads holds an
    entry. *)
Theorem classifyGesture_total (landmarks : list Landmark) :
  length landmarks = 21%nat →
  (∃ g, classifyGesture landmarks = Some g) ∧
  Forall (λ i, (i < 21)%nat ∧ is_Some (landmarks !! i)) landmarkIndices.
Proof.
  intros Hlen. split.
  - destruct (featuresOf_total landmarks Hlen) as [f Hf].
    exists (Rules.firstMatch f). exact (classifyGesture_firstMatch _ _ Hf).
  - apply Forall_forall. intros i Hi.
    assert (Hlt : (i < 21)%nat).
    { unfold landmarkIndices, tips, pips in Hi. cbn in Hi.
      repeat (apply elem_of_cons in Hi as [-> | Hi]; [lia|]).
      by apply elem_of_nil in Hi. }
    split; [exact Hlt|].
    destruct (hand_lookup landmarks i Hlen Hlt) as [l Hl]. by exists l.
Qed.

Lemma classifyGesture_total_witness :
  (∃ g, classifyGesture flatHand = Some g) ∧
  Forall (λ i, (i < 21)%nat ∧ is_Some (flatHand !! i)) landmarkIndices.
Proof.
  apply (classifyGesture_total flatHand). reflexivity.
Defined.

(** ** The engine: helper lemmas *)

Lemma eqb_neq_sym (a b : string) : a ≠ b → String.eqb b a = false.
Proof. intros H. apply String.eqb_neq. congruence. Qed.

(** A label different from the last dispatched one passes the debounce
    test at any time. *)
Lemma executeGestureAction_other (g : GestureResult) (now : Z) (st : GestureState) :
  name g ≠ lastGesture st →
  executeGestureAction g now st
  = (Some g, mkState (name g) now (gestureBuffer st) (confirmedGesture st)).
Proof.
  intros Hne. unfold executeGestureAction.
  apply String.eqb_neq in Hne. rewrite Hne. reflexivity.
Qed.

(** The same label passes exactly when 800 ms or more have gone by. *)
Lemma executeGestureAction_same (g : GestureResult) (now : Z) (st : GestureState) :
  name g = lastGesture st →
  executeGestureAction g now st
  = if now - gestureDebounce st <? 800
    then (None, st)
    else (Some g, mkState (name g) now (gestureBuffer st) (confirmedGesture st)).
Proof.
  intros He. unfold executeGestureAction.
  rewrite He, String.eqb_refl. reflexivity.
Qed.

(** A dispatch leaves the label and the time of the dispatch behind. *)
Lemma executeGestureAction_emitted (g g' : GestureResult) (now : Z)
    (st st' : GestureState) :
  executeGestureAction g now st = (Some g', st') →
  g' = g ∧ st' = mkState (name g) now (gestureBuffer st) (confirmedGesture st).
Proof.
  unfold executeGestureAction.
  destruct (_ && _); intros H; inversion H; subst; split; reflexivity.
Qed.

(** ** The engine: the claims *)

(** C1: from the initial state, the raw results A, A, B, B, B (A and B
    distinct, both with an action) emit nothing on frames 1 to 4 and emit B
    once, on frame 5. *)
Theorem confirmation_gate_trace (A B : GestureResult) (t1 t2 t3 t4 t5 : Z) :
  truthyAction (action A) = true →
  truthyAction (action B) = true →
  name A ≠ name B →
  name B ≠ EmptyString →
  let es := (run [(Raw A, t1); (Raw A, t2); (Raw B, t3); (Raw B, t4); (Raw B, t5)]
                 initialState).1 in
  es = [None; None; None; None; Some B] ∧ emissions es = [(5%nat, B)].
Proof.
  intros HA HB Hne HB0.
  assert (Hes : (run [(Raw A, t1); (Raw A, t2); (Raw B, t3); (Raw B, t4); (Raw B, t5)]
                     initialState).1 = [None; None; None; None; Some B]).
  { destruct A as [nA eA aA], B as [nB eB aB]. cbn in HA, HB, Hne, HB0.
    pose proof (eqb_neq_sym _ _ Hne) as Hba.
    apply String.eqb_neq in Hne, HB0.
    unfold run, observe, onRawGesture, getSmoothedGesture, executeGestureAction.
    engine_eval. reflexivity. }
  cbn zeta. rewrite Hes. split; reflexivity.
Qed.

Lemma confirmation_gate_trace_witness :
  let es := (run [(Raw Fist, 1); (Raw Fist, 2); (Raw Pointing, 3);
                  (Raw Pointing, 4); (Raw Pointing, 5)] initialState).1 in
  es = [None; None; None; None; Some Pointing] ∧ emissions es = [(5%nat, Pointing)].
Proof.
  apply (confirmation_gate_trace Fist Pointing 1 2 3 4 5);
    [reflexivity | reflexivity | discriminate | discriminate].
Defined.

(** C3: from the initial state, A, A, gap, A, A, A emits A on frame 6 only;
    the gap frame (no hand, or a result without action) empties the window
    and clears the confirmed label, so the two A before it do not count.
    The gap does so from every state: after A has been confirmed the gap
    clears the confirmed label too, and three further frames of A confirm
    it anew (it is then dispatched unless the 800 ms of the debounce have
    not passed). *)
Theorem gap_resets_streak (A : GestureResult) (gap : Observation)
    (t1 t2 t3 t4 t5 t6 : Z) :
  truthyAction (action A) = true →
  name A ≠ EmptyString →
  isGap gap = true →
  let before := run [(Raw A, t1); (Raw A, t2); (gap, t3)] initialState in
  let es := (run [(Raw A, t1); (Raw A, t2); (gap, t3);
                  (Raw A, t4); (Raw A, t5); (Raw A, t6)] initialState).1 in
  let held := run [(Raw A, t1); (Raw A, t2); (Raw A, t3)] initialState in
  before.1 = [None; None; None] ∧
  gestureBuffer before.2 = [] ∧ confirmedGesture before.2 = None ∧
  (run [(Raw A, t4); (Raw A, t5)] before.2).1 = [None; None] ∧
  es = [None; None; None; None; None; Some A] ∧ emissions es = [(6%nat, A)] ∧
  (∀ (st : GestureState) (now : Z),
     observe gap now st
     = (None, mkState (lastGesture st) (gestureDebounce st) [] None)) ∧
  confirmedGesture held.2 = Some (name A) ∧
  gestureBuffer held.2 = [name A; name A; name A] ∧
  confirmedGesture (observe gap t4 held.2).2 = None ∧
  gestureBuffer (observe gap t4 held.2).2 = [] ∧
  (∀ s5 s6 s7 : Z,
     (run [(Raw A, t1); (Raw A, t2); (Raw A, t3); (gap, t4);
           (Raw A, s5); (Raw A, s6); (Raw A, s7)] initialState).1
     = [None; None; Some A; None; None; None;
        if s7 - t3 <? 800 then None else Some A]).
Proof.
  intros HA HA0 Hgap.
  destruct A as [nA eA aA]. cbn in HA, HA0.
  apply String.eqb_neq in HA0.
  cbn zeta.
  destruct gap as [|g]; cbn in Hgap; [|apply negb_true_iff in Hgap];
    split_and!; intros;
    unfold run, observe, onRawGesture, getSmoothedGesture, executeGestureAction,
      clearSmoothing;
    engine_eval;
    try match goal with |- context [if ?c <? 800 then _ else _] => destruct (c <? 800) end;
    reflexivity.
Qed.

Lemma gap_resets_streak_witness :
  let before := run [(Raw Fist, 1); (Raw Fist, 2); (Raw Unknown, 3)] initialState in
  let es := (run [(Raw Fist, 1); (Raw Fist, 2); (Raw Unknown, 3);
                  (Raw Fist, 4); (Raw Fist, 5); (Raw Fist, 6)] initialState).1 in
  let held := run [(Raw Fist, 1); (Raw Fist, 2); (Raw Fist, 3)] initialState in
  before.1 = [None; None; None] ∧
  gestureBuffer before.2 = [] ∧ confirmedGesture before.2 = None ∧
  (run [(Raw Fist, 4); (Raw Fist, 5)] before.2).1 = [None; None] ∧
  es = [None; None; None; None; None; Some Fist] ∧ emissions es = [(6%nat, Fist)] ∧
  (∀ (st : GestureState) (now : Z),
     observe (Raw Unknown) now st
     = (None, mkState (lastGesture st) (gestureDebounce st) [] None)) ∧
  confirmedGesture held.2 = Some (name Fist) ∧
  gestureBuffer held.2 = [name Fist; name Fist; name Fist] ∧
  confirmedGesture (observe (Raw Unknown) 4 held.2).2 = None ∧
  gestureBuffer (observe (Raw Unknown) 4 held.2).2 = [] ∧
  (∀ s5 s6 s7 : Z,
     (run [(Raw Fist, 1); (Raw Fist, 2); (Raw Fist, 3); (Raw Unknown, 4);
           (Raw Fist, s5); (Raw Fist, s6); (Raw Fist, s7)] initialState).1
     = [None; None; Some Fist; None; None; None;
        if s7 - 3 <? 800 then None else Some Fist]).
Proof.
  apply (gap_resets_streak Fist (Raw Unknown) 1 2 3 4 5 6);
    [reflexivity | discriminate | reflexivity].
Defined.

(** The variables after three frames of "Fist", the third at time 1000:
    "Fist" is confirmed and has been dispatched. *)
Example state_after_fist :
  (run [(Raw Fist, 998); (Raw Fist, 999); (Raw Fist, 1000)] initialState).2
  = mkState "Fist" 1000 ["Fist"; "Fist"; "Fist"] (Some "Fist").
Proof. reflexivity. Qed.

(** C4: once A has been dispatched at time t0, a confirmation of A at
    t0 + 500 is dropped and leaves the state as it is, and a confirmation of
    A at t0 + 900 is dispatched; in general the same label is dropped
    within 800 ms of its dispatch and dispatched from 800 ms on. *)
Theorem same_label_debounce (A : GestureResult) (t0 : Z) (st st1 : GestureState) :
  executeGestureAction A t0 st = (Some A, st1) →
  executeGestureAction A (t0 + 500) st1 = (None, st1) ∧
  executeGestureAction A (t0 + 900) st1
  = (Some A, mkState (name A) (t0 + 900) (gestureBuffer st1) (confirmedGesture st1)) ∧
  ∀ d : Z,
    (d < 800 → executeGestureAction A (t0 + d) st1 = (None, st1)) ∧
    (800 ≤ d →
       executeGestureAction A (t0 + d) st1
       = (Some A, mkState (name A) (t0 + d) (gestureBuffer st1) (confirmedGesture st1))).
Proof.
  intros Hemit.
  apply executeGestureAction_emitted in Hemit as [_ ->].
  assert (Hgen : ∀ d : Z,
    (d < 800 →
       executeGestureAction A (t0 + d)
         (mkState (name A) t0 (gestureBuffer st) (confirmedGesture st))
       = (None, mkState (name A) t0 (gestureBuffer st) (confirmedGesture st))) ∧
    (800 ≤ d →
       executeGestureAction A (t0 + d)
         (mkState (name A) t0 (gestureBuffer st) (confirmedGesture st))
       = (Some A, mkState (name A) (t0 + d) (gestureBuffer st) (confirmedGesture st)))).
  { intros d.
    split; intros Hd; rewrite executeGestureAction_same by reflexivity;
      cbn [gestureDebounce gestureBuffer confirmedGesture].
    - replace (t0 + d - t0 <? 800) with true; [reflexivity|].
      symmetry. apply Z.ltb_lt. lia.
    - replace (t0 + d - t0 <? 800) with false; [reflexivity|].
      symmetry. apply Z.ltb_ge. lia. }
  split; [apply Hgen; lia|].
  split; [apply Hgen; lia|].
  exact Hgen.
Qed.

Lemma same_label_debounce_witness :
  let st1 := mkState "Fist" 0 ["Fist"; "Fist"; "Fist"] (Some "Fist") in
  executeGestureAction Fist (0 + 500) st1 = (None, st1) ∧
  executeGestureAction Fist (0 + 900) st1
  = (Some Fist, mkState (name Fist) (0 + 900) (gestureBuffer st1) (confirmedGesture st1)) ∧
  ∀ d : Z,
    (d < 800 → executeGestureAction Fist (0 + d) st1 = (None, st1)) ∧
    (800 ≤ d →
       executeGestureAction Fist (0 + d) st1
       = (Some Fist, mkState (name Fist) (0 + d) (gestureBuffer st1) (confirmedGesture st1))).
Proof.
  apply (same_label_debounce Fist 0
           (mkState EmptyString 0 ["Fist"; "Fist"; "Fist"] (Some "Fist"))).
  reflexivity.
Defined.

(** A second confirmation of the same label does arise in a run: A is
    confirmed and dispatched, a gap clears the window, and three more
    frames of A within 800 ms confirm it again; nothing is dispatched the
    second time. *)
Lemma reconfirmation_debounced (A : GestureResult) (t0 : Z) :
  truthyAction (action A) = true →
  name A ≠ EmptyString →
  (run [(Raw A, t0); (Raw A, t0); (Raw A, t0); (NoHand, t0 + 100);
        (Raw A, t0 + 300); (Raw A, t0 + 400); (Raw A, t0 + 500)] initialState).1
  = [None; None; Some A; None; None; None; None].
Proof.
  intros HA HA0. destruct A as [nA eA aA]. cbn in HA, HA0.
  apply String.eqb_neq in HA0.
  assert (H500 : (t0 + 500 - t0 <? 800) = true) by (apply Z.ltb_lt; lia).
  unfold run, observe, onRawGesture, getSmoothedGesture, executeGestureAction.
  engine_eval. rewrite H500. reflexivity.
Qed.

(** C5: once A has been dispatched at time t0, a confirmation of a
    different label B at t0 + 10 is dispatched at once; the time test is
    consulted only for the label dispatched last. *)
Theorem different_label_override (A B : GestureResult) (t0 : Z)
    (st st1 : GestureState) :
  executeGestureAction A t0 st = (Some A, st1) →
  name A ≠ name B →
  executeGestureAction B (t0 + 10) st1
  = (Some B, mkState (name B) (t0 + 10) (gestureBuffer st1) (confirmedGesture st1)) ∧
  ∀ (g : GestureResult) (now : Z),
    name g ≠ lastGesture st1 →
    executeGestureAction g now st1
    = (Some g, mkState (name g) now (gestureBuffer st1) (confirmedGesture st1)).
Proof.
  intros Hemit Hne.
  apply executeGestureAction_emitted in Hemit as [_ ->].
  split.
  - apply executeGestureAction_other. cbn. congruence.
  - intros g now Hg. apply executeGestureAction_other. exact Hg.
Qed.

Lemma different_label_override_witness :
  let st1 := mkState "Fist" 0 ["Fist"; "Fist"; "Fist"] (Some "Fist") in
  executeGestureAction Pointing (0 + 10) st1
  = (Some Pointing,
     mkState (name Pointing) (0 + 10) (gestureBuffer st1) (confirmedGesture st1)) ∧
  ∀ (g : GestureResult) (now : Z),
    name g ≠ lastGesture st1 →
    executeGestureAction g now st1
    = (Some g, mkState (name g) now (gestureBuffer st1) (confirmedGesture st1)).
Proof.
  apply (different_label_override Fist Pointing 0
           (mkState EmptyString 0 ["Fist"; "Fist"; "Fist"] (Some "Fist")));
    [reflexivity | discriminate].
Defined.

(** Calls that never repeat the label dispatched just before are all
    dispatched, whatever their clock readings. *)
Lemma executeAll_alternating (calls : list (GestureResult * Z)) (st : GestureState) :
  alternating (lastGesture st) calls →
  (executeAll calls st).1 = map (λ c : GestureResult * Z, Some c.1) calls.
Proof.
  revert st. induction calls as [|[g now] calls IH]; intros st; [reflexivity|].
  cbn [alternating executeAll map fst]. intros [Hne Halt].
  rewrite (executeGestureAction_other g now st Hne).
  specialize (IH (mkState (name g) now (gestureBuffer st) (confirmedGesture st)) Halt).
  destruct (executeAll calls _) as [es st2]. cbn in *. by rewrite IH.
Qed.

(** C10: the debounce test remembers one label only, so alternating
    confirmations are never suppressed.  After A is dispatched at t0 and a
    different label B at t0 + 10, a confirmation of A at t0 + 20 is
    dispatched again: the dispatch of B has overwritten the label and the
    time stored for A.  The same holds for any two clock readings in place
    of t0 + 10 and t0 + 20, and any series of confirmations in which no
    label follows itself is dispatched in full, however close in time. *)
Theorem debounce_depth_one (A B : GestureResult) (t0 : Z) (st st1 : GestureState) :
  executeGestureAction A t0 st = (Some A, st1) →
  name A ≠ name B →
  (∃ st2 st3,
     executeGestureAction B (t0 + 10) st1 = (Some B, st2) ∧
     lastGesture st2 = name B ∧ gestureDebounce st2 = t0 + 10 ∧
     executeGestureAction A (t0 + 20) st2 = (Some A, st3) ∧
     lastGesture st3 = name A ∧ gestureDebounce st3 = t0 + 20) ∧
  (∀ ta tb : Z, ∃ st2 st3,
     executeGestureAction B ta st1 = (Some B, st2) ∧
     lastGesture st2 = name B ∧ gestureDebounce st2 = ta ∧
     executeGestureAction A tb st2 = (Some A, st3) ∧
     lastGesture st3 = name A ∧ gestureDebounce st3 = tb) ∧
  (∀ calls : list (GestureResult * Z),
     alternating (name A) calls →
     (executeAll calls st1).1 = map (λ c : GestureResult * Z, Some c.1) calls) ∧
  (∀ (g : GestureResult) (now : Z) (s : GestureState),
     name g ≠ lastGesture s → (executeGestureAction g now s).1 = Some g).
Proof.
  intros Hemit Hne.
  apply executeGestureAction_emitted in Hemit as [_ ->].
  assert (Hany : ∀ ta tb : Z, ∃ st2 st3,
     executeGestureAction B ta
       (mkState (name A) t0 (gestureBuffer st) (confirmedGesture st)) = (Some B, st2) ∧
     lastGesture st2 = name B ∧ gestureDebounce st2 = ta ∧
     executeGestureAction A tb st2 = (Some A, st3) ∧
     lastGesture st3 = name A ∧ gestureDebounce st3 = tb).
  { intros ta tb. eexists _, _.
    split; [apply executeGestureAction_other; cbn; congruence|].
    split; [reflexivity|]. split; [reflexivity|].
    split; [apply executeGestureAction_other; cbn; exact Hne|].
    split; reflexivity. }
  split_and!.
  - exact (Hany (t0 + 10) (t0 + 20)).
  - exact Hany.
  - intros calls Halt. by apply executeAll_alternating.
  - intros g now s Hg. by rewrite executeGestureAction_other.
Qed.

Lemma debounce_depth_one_witness :
  let st1 := mkState "Fist" 0 ["Fist"; "Fist"; "Fist"] (Some "Fist") in
  (∃ st2 st3,
     executeGestureAction Pointing (0 + 10) st1 = (Some Pointing, st2) ∧
     lastGesture st2 = name Pointing ∧ gestureDebounce st2 = 0 + 10 ∧
     executeGestureAction Fist (0 + 20) st2 = (Some Fist, st3) ∧
     lastGesture st3 = name Fist ∧ gestureDebounce st3 = 0 + 20) ∧
  (∀ ta tb : Z, ∃ st2 st3,
     executeGestureAction Pointing ta st1 = (Some Pointing, st2) ∧
     lastGesture st2 = name Pointing ∧ gestureDebounce st2 = ta ∧
     executeGestureAction Fist tb st2 = (Some Fist, st3) ∧
     lastGesture st3 = name Fist ∧ gestureDebounce st3 = tb) ∧
  (∀ calls : list (GestureResult * Z),
     alternating (name Fist) calls →
     (executeAll calls st1).1 = map (λ c : GestureResult * Z, Some c.1) calls) ∧
  (∀ (g : GestureResult) (now : Z) (s : GestureState),
     name g ≠ lastGesture s → (executeGestureAction g now s).1 = Some g).
Proof.
  apply (debounce_depth_one Fist Pointing 0
           (mkState EmptyString 0 ["Fist"; "Fist"; "Fist"] (Some "Fist")));
    [reflexivity | discriminate].
Defined.

(** Fist, Pointing, Fist, Pointing, one millisecond apart: all four are
    dispatched. *)
Example alternating_calls_dispatched :
  (executeAll [(Fist, 1); (Pointing, 2); (Fist, 3); (Pointing, 4)] initialState).1
  = [Some Fist; Some Pointing; Some Fist; Some Pointing].
Proof. reflexivity. Qed.

(** C8 (as stated, refuted): stopping after "Fist" was dispatched at time
    1000 empties the window and clears the confirmed label, but the state
    is not the initial one: the debounce variables still hold "Fist" and
    1000. *)
Lemma stop_keeps_debounce_fields :
  let st := (run [(Raw Fist, 998); (Raw Fist, 999); (Raw Fist, 1000)] initialState).2 in
  stopGestureRecognition st ≠ initialState ∧
  lastGesture (stopGestureRecognition st) = "Fist" ∧
  gestureDebounce (stopGestureRecognition st) = 1000 ∧
  lastGesture (stopGestureRecognition st) ≠ lastGesture initialState ∧
  gestureDebounce (stopGestureRecognition st) ≠ gestureDebounce initialState.
Proof.
  cbn zeta. rewrite state_after_fist.
  repeat split; try reflexivity; discriminate.
Qed.

(** C8 (amended): stopping empties the window and clears the confirmed
    label, and leaves the two debounce variables as they were. *)
Theorem stop_resets_smoothing (st : GestureState) :
  gestureBuffer (stopGestureRecognition st) = gestureBuffer initialState ∧
  confirmedGesture (stopGestureRecognition st) = confirmedGesture initialState ∧
  gestureBuffer (stopGestureRecognition st) = [] ∧
  confirmedGesture (stopGestureRecognition st) = None ∧
  lastGesture (stopGestureRecognition st) = lastGesture st ∧
  gestureDebounce (stopGestureRecognition st) = gestureDebounce st.
Proof. repeat split. Qed.

(** ** The callback on sample hands *)

(** The callback agrees with [observe] on what the frame contributes. *)
Lemma onResults_observe (hands : option (list (list Landmark))) (now : Z)
    (st : GestureState) :
  onResults hands now st
  = match hands with
    | Some (landmarks :: _) =>
        g ← classifyGesture landmarks; Some (observe (Raw g) now st)
    | _ => Some (observe NoHand now st)
    end.
Proof. destruct hands as [[|landmarks rest]|]; reflexivity. Qed.

(** Two frames of a fist, then three of a pointing hand, through the
    callback itself: "Pointing" is dispatched on the fifth frame. *)
Example callback_trace :
  ∃ s1 s2 s3 s4 s5,
    onResults (Some [flatHand]) 1 initialState = Some (None, s1) ∧
    onResults (Some [flatHand]) 2 s1 = Some (None, s2) ∧
    onResults (Some [pointingHand]) 3 s2 = Some (None, s3) ∧
    onResults (Some [pointingHand]) 4 s3 = Some (None, s4) ∧
    onResults (Some [pointingHand]) 5 s4 = Some (Some Pointing, s5).
Proof.
  do 5 eexists. repeat split; vm_compute; reflexivity.
Qed.

(** ** The classifier: further properties *)

Lemma hand_lookup_ge (landmarks : list Landmark) (i : nat) :
  (21 ≤ length landmarks)%nat → (i < 21)%nat → ∃ l, landmarks !! i = Some l.
Proof. intros Hlen Hi. apply lookup_lt_is_Some_2. lia. Qed.

Lemma featuresOf_total_ge (landmarks : list Landmark) :
  (21 ≤ length landmarks)%nat → ∃ f, featuresOf landmarks = Some f.
Proof.
  intros Hlen. unfold featuresOf, thumbExtendedOf, thumbPointingUpOf, fingersExtendedOf.
  cbn.
  destruct (hand_lookup_ge landmarks 0 Hlen) as [? ->]; [lia|].
  destruct (hand_lookup_ge landmarks 2 Hlen) as [? ->]; [lia|].
  destruct (hand_lookup_ge landmarks 3 Hlen) as [? ->]; [lia|].
  destruct (hand_lookup_ge landmarks 4 Hlen) as [? ->]; [lia|].
  destruct (hand_lookup_ge landmarks 5 Hlen) as [? ->]; [lia|].
  destruct (hand_lookup_ge landmarks 6 Hlen) as [? ->]; [lia|].
  destruct (hand_lookup_ge landmarks 8 Hlen) as [? ->]; [lia|].
  destruct (hand_lookup_ge landmarks 10 Hlen) as [? ->]; [lia|].
  destruct (hand_lookup_ge landmarks 12 Hlen) as [? ->]; [lia|].
  destruct (hand_lookup_ge landmarks 14 Hlen) as [? ->]; [lia|].
  destruct (hand_lookup_ge landmarks 16 Hlen) as [? ->]; [lia|].
  destruct (hand_lookup_ge landmarks 18 Hlen) as [? ->]; [lia|].
  destruct (hand_lookup_ge landmarks 20 Hlen) as [? ->]; [lia|].
  cbn. eauto.
Qed.

(** Whatever the classifier returns is the rule list's choice on the
    features of the hand. *)
Lemma classifyGesture_Some (landmarks : list Landmark) (g : GestureResult) :
  classifyGesture landmarks = Some g →
  ∃ f, featuresOf landmarks = Some f ∧ g = Rules.firstMatch f.
Proof.
  intros Hg.
  destruct (decide (length landmarks < 21)%nat) as [Hlt|Hge].
  - rewrite (classifyGesture_short _ Hlt) in Hg. discriminate.
  - destruct (featuresOf_total_ge landmarks) as [f Hf]; [lia|].
    exists f. split; [exact Hf|].
    rewrite (classifyGesture_firstMatch _ _ Hf) in Hg. congruence.
Qed.

(** The classifier throws exactly on the hands shorter than 21. *)
Lemma classifyGesture_None_iff (landmarks : list Landmark) :
  classifyGesture landmarks = None ↔ (length landmarks < 21)%nat.
Proof.
  split; [|apply classifyGesture_short].
  intros Hn. destruct (decide (length landmarks < 21)%nat) as [|Hge]; [done|].
  destruct (featuresOf_total_ge landmarks) as [f Hf]; [lia|].
  rewrite (classifyGesture_firstMatch _ _ Hf) in Hn. discriminate.
Qed.

(** X1: the classifier returns a result exactly on the hands with at
    least 21 landmarks and throws on every shorter one; the callback
    throws exactly when the first hand it is given is shorter. *)
Theorem classifyGesture_defined_iff (landmarks : list Landmark) :
  (is_Some (classifyGesture landmarks) ↔ (21 ≤ length landmarks)%nat) ∧
  (classifyGesture landmarks = None ↔ (length landmarks < 21)%nat) ∧
  ∀ rest now st,
    onResults (Some (landmarks :: rest)) now st = None ↔ (length landmarks < 21)%nat.
Proof.
  pose proof (classifyGesture_None_iff landmarks) as Hnone.
  split; [|split; [exact Hnone|]].
  - rewrite <- not_eq_None_Some, Hnone. lia.
  - intros rest now st. rewrite <- Hnone. unfold onResults.
    destruct (classifyGesture landmarks); cbn; split; congruence.
Qed.

(** The rule list never selects L-Shape on features read from a hand. *)
Lemma firstMatch_not_LShape (landmarks : list Landmark) (f : Rules.Features) :
  featuresOf landmarks = Some f → In (Rules.firstMatch f) reachableGestures.
Proof.
  intros Hf.
  assert (Hne : Rules.firstMatch f ≠ LShape).
  { destruct (featuresOf_extended _ _ Hf) as (a & b & c & d & He).
    destruct f as [e te tu up dn dist]. cbn in He. subst e.
    unfold Rules.firstMatch, Rules.rules, Rules.openPalm, Rules.thumbsUp,
      Rules.thumbsDown, Rules.fist, Rules.pinch, Rules.okSign, Rules.peaceSign,
      Rules.pointing, Rules.threeFingers, Rules.lShape, Rules.fourFingers,
      Rules.rockOn, Rules.hangLoose, Rules.extendedCount, Rules.ext.
    cbn.
    destruct (PrimFloat.ltb dist Rules.PINCH_DISTANCE),
      (PrimFloat.ltb dist Rules.OK_DISTANCE), a, b, c, d, te, tu, up, dn;
      discriminate. }
  pose proof (firstMatch_cases f) as Hin. cbn in Hin. cbn.
  intuition congruence.
Qed.

(** X2: no hand is classified "L-Shape", so no hand yields the action
    "prev-section": every hand that meets rule 10 has already met rule 5 or
    rule 8. *)
Theorem lshape_unreachable (landmarks : list Landmark) (g : GestureResult) :
  classifyGesture landmarks = Some g →
  g ≠ LShape ∧ name g ≠ "L-Shape" ∧ action g ≠ Some "prev-section".
Proof.
  intros Hg. apply classifyGesture_Some in Hg as (f & Hf & ->).
  pose proof (firstMatch_not_LShape _ _ Hf) as Hin. cbn in Hin.
  repeat (destruct Hin as [<- | Hin]; [repeat split; discriminate|]).
  destruct Hin.
Qed.

Lemma lshape_unreachable_witness :
  Pointing ≠ LShape ∧ name Pointing ≠ "L-Shape" ∧ action Pointing ≠ Some "prev-section".
Proof.
  apply (lshape_unreachable pointingHand Pointing). vm_compute. reflexivity.
Defined.

(** X3: the results the classifier returns on hands of 21 landmarks are
    exactly the thirteen of [reachableGestures]. *)
Theorem classifier_range (g : GestureResult) :
  (∃ landmarks, length landmarks = 21%nat ∧ classifyGesture landmarks = Some g)
  ↔ In g reachableGestures.
Proof.
  split.
  - intros (landmarks & _ & Hg).
    apply classifyGesture_Some in Hg as (f & Hf & ->).
    exact (firstMatch_not_LShape _ _ Hf).
  - intros Hin. cbn in Hin.
    destruct Hin as [<- | Hin]; [exists openHand; split; vm_compute; reflexivity|].
    destruct Hin as [<- | Hin]; [exists thumbsUpHand; split; vm_compute; reflexivity|].
    destruct Hin as [<- | Hin]; [exists thumbsDownHand; split; vm_compute; reflexivity|].
    destruct Hin as [<- | Hin]; [exists flatHand; split; vm_compute; reflexivity|].
    destruct Hin as [<- | Hin]; [exists pinchedPointingHand; split; vm_compute; reflexivity|].
    destruct Hin as [<- | Hin]; [exists okHand; split; vm_compute; reflexivity|].
    destruct Hin as [<- | Hin]; [exists peaceHand; split; vm_compute; reflexivity|].
    destruct Hin as [<- | Hin]; [exists pointingHand; split; vm_compute; reflexivity|].
    destruct Hin as [<- | Hin]; [exists threeFingersHand; split; vm_compute; reflexivity|].
    destruct Hin as [<- | Hin]; [exists fourFingersHand; split; vm_compute; reflexivity|].
    destruct Hin as [<- | Hin]; [exists rockOnHand; split; vm_compute; reflexivity|].
    destruct Hin as [<- | Hin]; [exists hangLooseHand; split; vm_compute; reflexivity|].
    destruct Hin as [<- | Hin]; [exists middleFingerHand; split; vm_compute; reflexivity|].
    destruct Hin.
Qed.

(** X4: a hand with no finger extended and the thumb not extended is
    classified "Fist" with action "start": rules 1 to 3 all ask for the
    thumb. *)
Theorem fist_when_all_curled (landmarks : list Landmark) (f : Rules.Features) :
  featuresOf landmarks = Some f →
  Rules.extendedCount f = 0%nat →
  Rules.thumbExtended f = false →
  classifyGesture landmarks = Some (mkGesture "Fist" "✊" (Some "start")).
Proof.
  intros Hf Hc Ht.
  rewrite (classifyGesture_firstMatch _ _ Hf). f_equal.
  unfold Rules.firstMatch, Rules.rules. cbn [find fst snd].
  unfold Rules.openPalm, Rules.thumbsUp, Rules.thumbsDown, Rules.fist.
  rewrite Ht, Hc. reflexivity.
Qed.

Lemma fist_when_all_curled_witness :
  classifyGesture flatHand = Some (mkGesture "Fist" "✊" (Some "start")).
Proof.
  apply (fist_when_all_curled flatHand
           (Rules.mkFeatures [false; false; false; false] false false false false
              (landmarkDist (pt 0.5 0.5) (pt 0.5 0.5))));
    vm_compute; reflexivity.
Defined.

(** ** The engine: further properties *)

Lemma run_app (l1 l2 : list (Observation * Z)) (st : GestureState) :
  run (l1 ++ l2) st
  = ((run l1 st).1 ++ (run l2 (run l1 st).2).1, (run l2 (run l1 st).2).2).
Proof.
  revert st. induction l1 as [|[o now] l1 IH]; intros st.
  - cbn. by destruct (run l2 st).
  - cbn. destruct (observe o now st) as [e st1]. rewrite IH.
    destruct (run l1 st1) as [es st2]. reflexivity.
Qed.

(** The window after [getSmoothedGesture]: the pushed label, and the
    oldest entry dropped when that makes four. *)
Lemma getSmoothedGesture_buffer (g : GestureResult) (st : GestureState) :
  gestureBuffer (getSmoothedGesture g st).2
  = if (3 <? length (gestureBuffer st ++ [name g]))%nat
    then tail (gestureBuffer st ++ [name g])
    else gestureBuffer st ++ [name g].
Proof.
  unfold getSmoothedGesture, GESTURE_CONFIRM_FRAMES.
  repeat match goal with |- context [if ?c then _ else _] => destruct c end;
    reflexivity.
Qed.

Lemma getSmoothedGesture_debounce (g : GestureResult) (st : GestureState) :
  lastGesture (getSmoothedGesture g st).2 = lastGesture st ∧
  gestureDebounce (getSmoothedGesture g st).2 = gestureDebounce st.
Proof.
  unfold getSmoothedGesture.
  repeat match goal with |- context [if ?c then _ else _] => destruct c end;
    split; reflexivity.
Qed.

(** When [getSmoothedGesture] confirms, the window is full of the label. *)
Lemma getSmoothedGesture_Some (g c : GestureResult) (st st1 : GestureState) :
  getSmoothedGesture g st = (Some c, st1) →
  c = g ∧ length (gestureBuffer st1) = 3%nat ∧
  Forall (λ n, n = name g) (gestureBuffer st1) ∧
  confirmedGesture st1 = Some (name g) ∧
  differsFrom (confirmedGesture st) (name g) = true.
Proof.
  unfold getSmoothedGesture, GESTURE_CONFIRM_FRAMES.
  set (buffer := if (3 <? _)%nat then _ else _).
  destruct (_ && _) eqn:Hfull; [|discriminate].
  destruct (differsFrom _ _) eqn:Hd; [|discriminate].
  intros H. inversion H; subst. cbn.
  apply andb_true_iff in Hfull as [Hlen Hall].
  apply Nat.eqb_eq in Hlen.
  repeat split; try done.
  apply Forall_forall. intros n Hn.
  rewrite forallb_forall in Hall. apply String.eqb_eq, Hall.
  by apply list_elem_of_In.
Qed.

(** What an emitting frame looks like. *)
Lemma observe_Some (o : Observation) (now : Z) (st st' : GestureState)
    (g : GestureResult) :
  observe o now st = (Some g, st') →
  o = Raw g ∧ truthyAction (action g) = true ∧
  length (gestureBuffer st') = 3%nat ∧
  Forall (λ n, n = name g) (gestureBuffer st') ∧
  gestureBuffer st' = gestureBuffer (getSmoothedGesture g st).2 ∧
  lastGesture st' = name g ∧ gestureDebounce st' = now ∧
  (name g ≠ lastGesture st ∨ 800 ≤ now - gestureDebounce st).
Proof.
  destruct o as [|raw]; cbn; [discriminate|].
  unfold onRawGesture.
  destruct (truthyAction (action raw)) eqn:Hact; [|discriminate].
  destruct (getSmoothedGesture raw st) as [[c|] st1] eqn:Hs; [|discriminate].
  apply getSmoothedGesture_Some in Hs as Hc.
  destruct Hc as (-> & Hlen & Hall & _ & _).
  destruct (getSmoothedGesture_debounce raw st) as [Hl Hd].
  rewrite Hs in Hl, Hd. cbn in Hl, Hd.
  unfold executeGestureAction. rewrite Hl, Hd.
  destruct (String.eqb (name raw) (lastGesture st)) eqn:Heq; cbn.
  - destruct (now - gestureDebounce st <? 800) eqn:Hlt; [discriminate|].
    intros H. inversion H; subst. cbn. rewrite Hs. cbn.
    apply Z.ltb_ge in Hlt. split_and!; try done. by right.
  - intros H. inversion H; subst. cbn. rewrite Hs. cbn.
    apply String.eqb_neq in Heq. split_and!; try done. by left.
Qed.

(** A frame that emits nothing leaves the debounce variables alone. *)
Lemma observe_None (o : Observation) (now : Z) (st st' : GestureState) :
  observe o now st = (None, st') →
  lastGesture st' = lastGesture st ∧ gestureDebounce st' = gestureDebounce st.
Proof.
  destruct o as [|raw]; cbn.
  - intros H. inversion H. done.
  - unfold onRawGesture.
    destruct (truthyAction (action raw)); [|intros H; inversion H; done].
    destruct (getSmoothedGesture_debounce raw st) as [Hl Hd].
    destruct (getSmoothedGesture raw st) as [[c|] st1]; cbn in Hl, Hd.
    + unfold executeGestureAction.
      destruct (_ && _); intros H; inversion H; subst; done.
    + intros H. inversion H; subst. done.
Qed.

(** The window after any frame. *)
Lemma observe_buffer (o : Observation) (now : Z) (st : GestureState) :
  gestureBuffer (observe o now st).2
  = match o with
    | NoHand => []
    | Raw g =>
        if truthyAction (action g)
        then gestureBuffer (getSmoothedGesture g st).2
        else []
    end.
Proof.
  destruct o as [|raw]; cbn; [reflexivity|].
  unfold onRawGesture. destruct (truthyAction (action raw)); [|reflexivity].
  destruct (getSmoothedGesture raw st) as [[c|] st1]; [|reflexivity].
  unfold executeGestureAction. by destruct (_ && _).
Qed.

(** X5: the window never holds more than three labels: a run started with
    at most three labels in the window ends with at most three. *)
Theorem window_bounded (frames : list (Observation * Z)) (st : GestureState) :
  (length (gestureBuffer st) ≤ 3)%nat →
  (length (gestureBuffer (run frames st).2) ≤ 3)%nat.
Proof.
  revert st. induction frames as [|[o now] frames IH]; intros st Hst; [exact Hst|].
  cbn. destruct (observe o now st) as [e st1] eqn:Ho.
  specialize (IH st1). destruct (run frames st1) as [es st2]. cbn in *.
  apply IH.
  replace st1 with (observe o now st).2 by (rewrite Ho; reflexivity).
  rewrite observe_buffer. destruct o as [|raw]; cbn; [lia|].
  destruct (truthyAction (action raw)); cbn; [|lia].
  rewrite getSmoothedGesture_buffer.
  destruct (gestureBuffer st) as [|n1 [|n2 [|n3 [|n4 rest]]]]; cbn in *; lia.
Qed.

Lemma window_bounded_witness :
  let frames :=
    [(Raw Fist, 1); (Raw Fist, 2); (Raw Pointing, 3); (Raw Fist, 4); (Raw Fist, 5)] in
  (length (gestureBuffer (run frames initialState).2) ≤ 3)%nat.
Proof.
  apply (window_bounded
           [(Raw Fist, 1); (Raw Fist, 2); (Raw Pointing, 3); (Raw Fist, 4); (Raw Fist, 5)]
           initialState).
  cbn. lia.
Defined.

(** One more frame keeps the window aligned with the end of the run. *)
Lemma windowOf_step (frames : list (Observation * Z)) (o : Observation) (now : Z)
    (st : GestureState) :
  windowOf frames (gestureBuffer st) →
  windowOf (frames ++ [(o, now)]) (gestureBuffer (observe o now st).2).
Proof.
  intros (pre & suf & -> & Hsuf).
  rewrite observe_buffer.
  assert (Hempty : windowOf ((pre ++ suf) ++ [(o, now)]) []).
  { exists ((pre ++ suf) ++ [(o, now)]), []. split; [by rewrite app_nil_r|constructor]. }
  destruct o as [|raw]; [exact Hempty|].
  destruct (truthyAction (action raw)) eqn:Hact; [|exact Hempty].
  rewrite getSmoothedGesture_buffer.
  assert (Hpush : Forall2 carries (suf ++ [(Raw raw, now)]) (gestureBuffer st ++ [name raw])).
  { apply Forall2_app; [exact Hsuf|]. constructor; [|constructor].
    exists raw. done. }
  destruct (3 <? length (gestureBuffer st ++ [name raw]))%nat.
  - rewrite <- app_assoc.
    destruct (suf ++ [(Raw raw, now)]) as [|fr sufr].
    + inversion Hpush as [Hb|]. exists pre, []. cbn. split; [done|constructor].
    + inversion Hpush as [|? n ? bufr Hfr Hrest Hb1 Hb2]. cbn.
      exists (pre ++ [fr]), sufr. split; [|exact Hrest].
      by rewrite <- app_assoc.
  - exists pre, (suf ++ [(Raw raw, now)]). split; [by rewrite app_assoc|exact Hpush].
Qed.

Lemma windowOf_run (frames : list (Observation * Z)) :
  windowOf frames (gestureBuffer (run frames initialState).2).
Proof.
  induction frames as [|[o now] frames IH] using rev_ind.
  - exists [], []. split; [reflexivity|constructor].
  - rewrite run_app. cbn [snd].
    replace (run [(o, now)] (run frames initialState).2).2
      with (observe o now (run frames initialState).2).2.
    + by apply windowOf_step.
    + cbn. by destruct (observe o now _).
Qed.

(** X6: nothing is emitted without three agreeing frames in a row.  If a
    frame of a run from the initial state emits [g], that frame is the raw
    result [g] itself and the two frames just before it are raw results
    with the same name, all three with an action. *)
Theorem emission_needs_three_frames (frames : list (Observation * Z))
    (o : Observation) (now : Z) (g : GestureResult) (st' : GestureState) :
  observe o now (run frames initialState).2 = (Some g, st') →
  o = Raw g ∧ truthyAction (action g) = true ∧
  ∃ pre a ta b tb,
    frames = pre ++ [(Raw a, ta); (Raw b, tb)] ∧
    name a = name g ∧ name b = name g ∧
    truthyAction (action a) = true ∧ truthyAction (action b) = true.
Proof.
  intros Hemit.
  pose proof (windowOf_step frames o now _ (windowOf_run frames)) as Hw.
  rewrite Hemit in Hw. cbn [snd] in Hw.
  apply observe_Some in Hemit as (-> & Hact & Hlen & Hall & _).
  split; [reflexivity|]. split; [exact Hact|].
  destruct Hw as (pre & suf & Hfr & Hsuf).
  destruct (gestureBuffer st') as [|n1 [|n2 [|n3 [|]]]]; try discriminate.
  inversion Hsuf as [|f1 ? suf1 ? H1 Hsuf1]; subst.
  inversion Hsuf1 as [|f2 ? suf2 ? H2 Hsuf2]; subst.
  inversion Hsuf2 as [|f3 ? suf3 ? H3 Hsuf3]; subst.
  inversion Hsuf3; subst.
  inversion Hall as [|? ? E1 Hall1]; subst.
  inversion Hall1 as [|? ? E2 Hall2]; subst.
  destruct f1 as [o1 t1], f2 as [o2 t2].
  destruct H1 as (a & Ho1 & Ha & Hna), H2 as (b & Ho2 & Hb & Hnb).
  cbn in Ho1, Ho2. subst o1 o2.
  exists pre, a, t1, b, t2.
  split_and!; try done.
  change (pre ++ [(Raw a, t1); (Raw b, t2); f3])
    with (pre ++ [(Raw a, t1); (Raw b, t2)] ++ [f3]) in Hfr.
  rewrite app_assoc in Hfr. by apply app_inj_tail in Hfr as [-> _].
Qed.

Lemma emission_needs_three_frames_witness :
  Raw Fist = Raw Fist ∧ truthyAction (action Fist) = true ∧
  ∃ pre a ta b tb,
    [(Raw Fist, 1); (Raw Fist, 2)] = pre ++ [(Raw a, ta); (Raw b, tb)] ∧
    name a = name Fist ∧ name b = name Fist ∧
    truthyAction (action a) = true ∧ truthyAction (action b) = true.
Proof.
  apply (emission_needs_three_frames [(Raw Fist, 1); (Raw Fist, 2)] (Raw Fist) 3 Fist
           (mkState "Fist" 3 ["Fist"; "Fist"; "Fist"] (Some "Fist"))).
  reflexivity.
Defined.

(** Once a label fills the window and is the confirmed one, further frames
    of it change nothing and emit nothing. *)
Lemma held_frames_quiet (A : GestureResult) (ts : list Z) (last : string) (since : Z) :
  truthyAction (action A) = true →
  run (map (pair (Raw A)) ts)
      (mkState last since [name A; name A; name A] (Some (name A)))
  = (replicate (length ts) None,
     mkState last since [name A; name A; name A] (Some (name A))).
Proof.
  intros HA. induction ts as [|t ts IH]; [reflexivity|].
  cbn [map run observe length replicate].
  unfold onRawGesture. rewrite HA.
  unfold getSmoothedGesture. cbn. rewrite !String.eqb_refl. cbn.
  rewrite IH. reflexivity.
Qed.

(** X7: a held gesture fires once.  From the initial state, any number of
    consecutive frames of the same result (three or more) emit it on the
    third frame and never again, however long it is held and whatever the
    clock says. *)
Theorem held_gesture_fires_once (A : GestureResult) (t1 t2 t3 : Z) (ts : list Z) :
  truthyAction (action A) = true →
  name A ≠ EmptyString →
  let es := (run (map (pair (Raw A)) (t1 :: t2 :: t3 :: ts)) initialState).1 in
  es = [None; None; Some A] ++ replicate (length ts) None ∧
  emissions es = [(3%nat, A)].
Proof.
  intros HA HA0.
  assert (Hes : (run (map (pair (Raw A)) (t1 :: t2 :: t3 :: ts)) initialState).1
                = [None; None; Some A] ++ replicate (length ts) None).
  { change (map (pair (Raw A)) (t1 :: t2 :: t3 :: ts))
      with ([(Raw A, t1); (Raw A, t2); (Raw A, t3)] ++ map (pair (Raw A)) ts).
    rewrite run_app. cbn [fst].
    assert (H3 : run [(Raw A, t1); (Raw A, t2); (Raw A, t3)] initialState
                 = ([None; None; Some A],
                    mkState (name A) t3 [name A; name A; name A] (Some (name A)))).
    { apply String.eqb_neq in HA0.
      unfold run, observe, onRawGesture, getSmoothedGesture, executeGestureAction.
      engine_eval. reflexivity. }
    rewrite H3. cbn [fst snd]. by rewrite held_frames_quiet. }
  cbn zeta. rewrite Hes. split; [reflexivity|].
  unfold emissions. cbn.
  assert (Hq : ∀ (n k : nat),
            omap (λ p : nat * option GestureResult, g ← p.2; Some (S p.1, g))
                 (imap (λ i, pair (k + i)%nat) (replicate n None)) = []).
  { intros n. induction n as [|n IH]; intros k; [reflexivity|].
    cbn. rewrite <- (IH (S k)). f_equal. apply imap_ext. intros i o _. cbn.
    f_equal. lia. }
  f_equal. rewrite <- (Hq (length ts) 3%nat). f_equal.
Qed.

Lemma held_gesture_fires_once_witness :
  let es := (run (map (pair (Raw Fist)) [10; 20; 30; 2000; 4000]) initialState).1 in
  es = [None; None; Some Fist] ++ replicate (length [2000; 4000]) None ∧
  emissions es = [(3%nat, Fist)].
Proof.
  apply (held_gesture_fires_once Fist 10 20 30 [2000; 4000]);
    [reflexivity | discriminate].
Defined.

(** Frames that emit nothing leave the debounce variables alone. *)
Lemma run_quiet (frames : list (Observation * Z)) (st : GestureState) :
  Forall (λ e, e = None) (run frames st).1 →
  lastGesture (run frames st).2 = lastGesture st ∧
  gestureDebounce (run frames st).2 = gestureDebounce st.
Proof.
  revert st. induction frames as [|[o now] frames IH]; intros st; [done|].
  cbn. destruct (observe o now st) as [e st1] eqn:Ho.
  specialize (IH st1). destruct (run frames st1) as [es st2]. cbn in *.
  intros Hq. inversion Hq as [|? ? He Hes]; subst.
  apply observe_None in Ho as [<- <-]. by apply IH.
Qed.

(** X8: two successive dispatches of the same label are at least 800 ms
    apart.  If a frame emits at time t1, the following frames emit nothing,
    and then a frame emits a result of the same name at time t2, then
    t2 - t1 >= 800, from whatever state the run starts. *)
Theorem dispatch_spacing (o1 o2 : Observation) (t1 t2 : Z)
    (quiet : list (Observation * Z)) (st s1 s3 : GestureState)
    (g1 g2 : GestureResult) :
  observe o1 t1 st = (Some g1, s1) →
  Forall (λ e, e = None) (run quiet s1).1 →
  observe o2 t2 (run quiet s1).2 = (Some g2, s3) →
  name g1 = name g2 →
  800 ≤ t2 - t1.
Proof.
  intros H1 Hq H2 Hname.
  apply observe_Some in H1 as (_ & _ & _ & _ & _ & Hl1 & Hd1 & _).
  apply observe_Some in H2 as (_ & _ & _ & _ & _ & _ & _ & Hgate).
  apply run_quiet in Hq as [Hl Hd]. rewrite Hl, Hd, Hl1, Hd1 in Hgate.
  destruct Hgate as [Hne|Hge]; [congruence|exact Hge].
Qed.

Lemma dispatch_spacing_witness : 800 ≤ 900 - 0.
Proof.
  apply (dispatch_spacing (Raw Fist) (Raw Fist) 0 900
           [(NoHand, 100); (Raw Fist, 200); (Raw Fist, 300)]
           (mkState EmptyString 0 ["Fist"; "Fist"] None)
           (mkState "Fist" 0 ["Fist"; "Fist"; "Fist"] (Some "Fist"))
           (mkState "Fist" 900 ["Fist"; "Fist"; "Fist"] (Some "Fist"))
           Fist Fist).
  - reflexivity.
  - vm_compute. repeat constructor.
  - reflexivity.
  - reflexivity.
Defined.

(** An emitting frame found two labels in the window already. *)
Lemma observe_Some_buffer (o : Observation) (now : Z) (st st' : GestureState)
    (g : GestureResult) :
  observe o now st = (Some g, st') → (2 ≤ length (gestureBuffer st))%nat.
Proof.
  intros H. apply observe_Some in H as (_ & _ & Hlen & _ & Hbuf & _).
  rewrite Hbuf, getSmoothedGesture_buffer in Hlen.
  destruct (gestureBuffer st) as [|n1 [|n2 rest]]; cbn in *; [discriminate..|lia].
Qed.

(** From an empty window the next two frames emit nothing. *)
Lemma empty_window_two_frames (o1 o2 : Observation) (t1 t2 : Z) (st : GestureState) :
  gestureBuffer st = [] → (run [(o1, t1); (o2, t2)] st).1 = [None; None].
Proof.
  intros Hb. cbn.
  destruct (observe o1 t1 st) as [e1 s1] eqn:H1.
  destruct (observe o2 t2 s1) as [e2 s2] eqn:H2. cbn.
  destruct e1 as [g1|].
  { apply observe_Some_buffer in H1. rewrite Hb in H1. cbn in H1. lia. }
  destruct e2 as [g2|]; [|reflexivity].
  apply observe_Some_buffer in H2.
  assert (Hs1 : gestureBuffer s1 = gestureBuffer (observe o1 t1 st).2)
    by (rewrite H1; reflexivity).
  rewrite observe_buffer in Hs1.
  destruct o1 as [|raw]; [rewrite Hs1 in H2; cbn in H2; lia|].
  destruct (truthyAction (action raw)); [|rewrite Hs1 in H2; cbn in H2; lia].
  rewrite getSmoothedGesture_buffer, Hb in Hs1. cbn in Hs1.
  rewrite Hs1 in H2. cbn in H2. lia.
Qed.

(** X9: after a stop, or after a frame without hand or without action, a
    streak starts from nothing: the next two frames never emit, whatever
    they are and whatever the state was. *)
Theorem streak_restarts_after_clear (st : GestureState) (gap o1 o2 : Observation)
    (t0 t1 t2 : Z) :
  isGap gap = true →
  (run [(o1, t1); (o2, t2)] (stopGestureRecognition st)).1 = [None; None] ∧
  (run [(gap, t0); (o1, t1); (o2, t2)] st).1 = [None; None; None].
Proof.
  intros Hgap. split.
  - by apply empty_window_two_frames.
  - change [(gap, t0); (o1, t1); (o2, t2)] with ([(gap, t0)] ++ [(o1, t1); (o2, t2)]).
    rewrite run_app. cbn [fst].
    assert (Hg : run [(gap, t0)] st = ([None], clearSmoothing st)).
    { destruct gap as [|raw]; cbn; [reflexivity|].
      cbn in Hgap. apply negb_true_iff in Hgap.
      unfold onRawGesture. by rewrite Hgap. }
    rewrite Hg. cbn [fst snd].
    by rewrite empty_window_two_frames.
Qed.

Lemma streak_restarts_after_clear_witness :
  (run [(Raw Fist, 11); (Raw Fist, 12)]
       (stopGestureRecognition (mkState "Pinch" 5 ["Fist"; "Fist"] None))).1
  = [None; None] ∧
  (run [(NoHand, 10); (Raw Fist, 11); (Raw Fist, 12)]
       (mkState "Pinch" 5 ["Fist"; "Fist"] None)).1 = [None; None; None].
Proof.
  apply (streak_restarts_after_clear (mkState "Pinch" 5 ["Fist"; "Fist"] None)
           NoHand (Raw Fist) (Raw Fist) 10 11 12).
  reflexivity.
Defined.

(** X10: the debounce outlives a stop.  After A was dispatched at t0 and
    detection was stopped, three new frames of A confirm it again, and it
    is dispatched on the third exactly when 800 ms have passed since t0. *)
Theorem debounce_survives_stop (A : GestureResult) (t0 t1 t2 t3 : Z)
    (st st1 : GestureState) :
  executeGestureAction A t0 st = (Some A, st1) →
  truthyAction (action A) = true →
  (run [(Raw A, t1); (Raw A, t2); (Raw A, t3)] (stopGestureRecognition st1)).1
  = [None; None; if t3 - t0 <? 800 then None else Some A].
Proof.
  intros Hemit HA.
  apply executeGestureAction_emitted in Hemit as [_ ->].
  destruct A as [nA eA aA]. cbn in HA.
  unfold stopGestureRecognition, clearSmoothing, run, observe, onRawGesture,
    getSmoothedGesture, executeGestureAction.
  engine_eval. by destruct (t3 - t0 <? 800).
Qed.

Lemma debounce_survives_stop_witness :
  (run [(Raw Fist, 100); (Raw Fist, 200); (Raw Fist, 300)]
       (stopGestureRecognition (mkState "Fist" 0 ["Fist"; "Fist"; "Fist"] (Some "Fist")))).1
  = [None; None; if 300 - 0 <? 800 then None else Some Fist].
Proof.
  apply (debounce_survives_stop Fist 0 100 200 300
           (mkState EmptyString 0 ["Fist"; "Fist"; "Fist"] (Some "Fist")));
    reflexivity.
Defined.

(** ** Section navigation and theme toggling *)

(** X11: with at least one section and the index within the list, the
    next-section and prev-section cases keep the index within the list and
    scroll the section at the new index into view. *)
Theorem section_index_in_range (allSections : list string) (i : Z) :
  0 ≤ i < Z.of_nat (length allSections) →
  (∃ j id,
     nextSectionCase allSections (Some i)
     = (Some j, Some (id, String.append "🖖 Next section: " id)) ∧
     0 ≤ j < Z.of_nat (length allSections) ∧
     allSections !! Z.to_nat j = Some id ∧
     j = (i + 1) mod Z.of_nat (length allSections)) ∧
  (∃ j id,
     prevSectionCase allSections (Some i)
     = (Some j, Some (id, String.append "👆 Previous section: " id)) ∧
     0 ≤ j < Z.of_nat (length allSections) ∧
     allSections !! Z.to_nat j = Some id ∧
     j = (i - 1) mod Z.of_nat (length allSections)).
Proof.
  intros Hi.
  set (n := length allSections) in *.
  assert (Hn : (n =? 0)%nat = false) by (apply Nat.eqb_neq; lia).
  split.
  - assert (Hj : 0 ≤ Z.rem (i + 1) (Z.of_nat n) < Z.of_nat n)
      by (apply Z.rem_bound_pos; lia).
    destruct (lookup_lt_is_Some_2 allSections (Z.to_nat (Z.rem (i + 1) (Z.of_nat n))))
      as [id Hid]; [fold n; lia|].
    exists (Z.rem (i + 1) (Z.of_nat n)), id.
    unfold nextSectionCase, jsRem, sectionAt. fold n. cbn. rewrite Hn. cbn.
    replace (Z.rem (i + 1) (Z.of_nat n) <? 0) with false by (symmetry; apply Z.ltb_ge; lia).
    rewrite Hid. cbn. split_and!; try done; try lia.
    apply Z.rem_mod_nonneg; lia.
  - assert (Hj : 0 ≤ Z.rem (i - 1 + Z.of_nat n) (Z.of_nat n) < Z.of_nat n)
      by (apply Z.rem_bound_pos; lia).
    destruct (lookup_lt_is_Some_2 allSections
                (Z.to_nat (Z.rem (i - 1 + Z.of_nat n) (Z.of_nat n))))
      as [id Hid]; [fold n; lia|].
    exists (Z.rem (i - 1 + Z.of_nat n) (Z.of_nat n)), id.
    unfold prevSectionCase, jsRem, sectionAt. fold n. cbn. rewrite Hn. cbn.
    replace (Z.rem (i - 1 + Z.of_nat n) (Z.of_nat n) <? 0) with false
      by (symmetry; apply Z.ltb_ge; lia).
    rewrite Hid. cbn. split_and!; try done; try lia.
    rewrite Z.rem_mod_nonneg by lia.
    replace (i - 1 + Z.of_nat n) with (i - 1 + 1 * Z.of_nat n) by lia.
    apply Z.mod_add. lia.
Qed.

Lemma section_index_in_range_witness :
  (∃ j id,
     nextSectionCase ["hero"; "features"; "footer"] (Some 2)
     = (Some j, Some (id, String.append "🖖 Next section: " id)) ∧
     0 ≤ j < Z.of_nat (length ["hero"; "features"; "footer"]) ∧
     ["hero"; "features"; "footer"] !! Z.to_nat j = Some id ∧
     j = (2 + 1) mod Z.of_nat (length ["hero"; "features"; "footer"])) ∧
  (∃ j id,
     prevSectionCase ["hero"; "features"; "footer"] (Some 2)
     = (Some j, Some (id, String.append "👆 Previous section: " id)) ∧
     0 ≤ j < Z.of_nat (length ["hero"; "features"; "footer"]) ∧
     ["hero"; "features"; "footer"] !! Z.to_nat j = Some id ∧
     j = (2 - 1) mod Z.of_nat (length ["hero"; "features"; "footer"])).
Proof.
  apply (section_index_in_range ["hero"; "features"; "footer"] 2). cbn. lia.
Defined.

(** X12: within the list, prev-section undoes next-section and
    next-section undoes prev-section. *)
Theorem next_prev_round_trip (allSections : list string) (i : Z) :
  0 ≤ i < Z.of_nat (length allSections) →
  (prevSectionCase allSections (nextSectionCase allSections (Some i)).1).1 = Some i ∧
  (nextSectionCase allSections (prevSectionCase allSections (Some i)).1).1 = Some i.
Proof.
  intros Hi.
  set (n := length allSections) in *.
  assert (Hn : (n =? 0)%nat = false) by (apply Nat.eqb_neq; lia).
  unfold prevSectionCase, nextSectionCase, jsRem. fold n. cbn. rewrite Hn. cbn.
  rewrite ?Hn.
  split; f_equal.
  - rewrite !Z.rem_mod_nonneg; try lia.
    + destruct (decide (i + 1 = Z.of_nat n)) as [He|Hne].
      * rewrite He, Z.mod_same by lia.
        replace (0 - 1 + Z.of_nat n) with i by lia. apply Z.mod_small. lia.
      * rewrite (Z.mod_small (i + 1)) by lia.
        replace (i + 1 - 1 + Z.of_nat n) with (i + 1 * Z.of_nat n) by lia.
        rewrite Z.mod_add by lia. apply Z.mod_small. lia.
    + pose proof (Z.rem_bound_pos (i + 1) (Z.of_nat n)). lia.
  - rewrite !Z.rem_mod_nonneg; try lia.
    + destruct (decide (i = 0)) as [->|Hne].
      * replace (0 - 1 + Z.of_nat n) with (Z.of_nat n - 1) by lia.
        rewrite (Z.mod_small (Z.of_nat n - 1)) by lia.
        replace (Z.of_nat n - 1 + 1) with (Z.of_nat n) by lia.
        apply Z.mod_same. lia.
      * replace (i - 1 + Z.of_nat n) with (i - 1 + 1 * Z.of_nat n) by lia.
        rewrite Z.mod_add by lia. rewrite (Z.mod_small (i - 1)) by lia.
        replace (i - 1 + 1) with i by lia. apply Z.mod_small. lia.
    + pose proof (Z.rem_bound_pos (i - 1 + Z.of_nat n) (Z.of_nat n)). lia.
Qed.

Lemma next_prev_round_trip_witness :
  (prevSectionCase ["hero"; "features"; "footer"]
     (nextSectionCase ["hero"; "features"; "footer"] (Some 2)).1).1 = Some 2 ∧
  (nextSectionCase ["hero"; "features"; "footer"]
     (prevSectionCase ["hero"; "features"; "footer"] (Some 2)).1).1 = Some 2.
Proof.
  apply (next_prev_round_trip ["hero"; "features"; "footer"] 2). cbn. lia.
Defined.

Lemma next_iter (allSections : list string) (i : Z) (k : nat) :
  0 ≤ i < Z.of_nat (length allSections) →
  Nat.iter k (λ c, (nextSectionCase allSections c).1) (Some i)
  = Some ((i + Z.of_nat k) mod Z.of_nat (length allSections)).
Proof.
  intros Hi. set (n := length allSections) in *.
  assert (Hn : (n =? 0)%nat = false) by (apply Nat.eqb_neq; lia).
  induction k as [|k IH].
  - cbn. rewrite Z.add_0_r, Z.mod_small by lia. reflexivity.
  - rewrite Nat.iter_succ, IH.
    unfold nextSectionCase, jsRem. fold n. cbn. rewrite Hn. f_equal.
    pose proof (Z.mod_pos_bound (i + Z.of_nat k) (Z.of_nat n)).
    rewrite Z.rem_mod_nonneg by lia.
    rewrite Z.add_mod_idemp_l by lia. f_equal. lia.
Qed.

(** X13: next-section walks the sections in a cycle: as many next-section
    gestures as there are sections lead back to the section one started
    from. *)
Theorem next_section_full_cycle (allSections : list string) (i : Z) :
  0 ≤ i < Z.of_nat (length allSections) →
  Nat.iter (length allSections) (λ c, (nextSectionCase allSections c).1) (Some i)
  = Some i.
Proof.
  intros Hi. rewrite next_iter by exact Hi. f_equal.
  replace (i + Z.of_nat (length allSections))
    with (i + 1 * Z.of_nat (length allSections)) by lia.
  rewrite Z.mod_add by lia. apply Z.mod_small. lia.
Qed.

Lemma next_section_full_cycle_witness :
  Nat.iter (length ["hero"; "features"; "footer"])
    (λ c, (nextSectionCase ["hero"; "features"; "footer"] c).1) (Some 1)
  = Some 1.
Proof.
  apply (next_section_full_cycle ["hero"; "features"; "footer"] 1). cbn. lia.
Defined.

(** X14: on a page without sections the index turns into NaN at the first
    next-section or prev-section, nothing is scrolled, and every later
    navigation finds NaN again. *)
Theorem no_sections_no_navigation (currentSectionIndex : option Z) :
  nextSectionCase [] currentSectionIndex = (None, None) ∧
  prevSectionCase [] currentSectionIndex = (None, None) ∧
  ∀ allSections : list string,
    nextSectionCase allSections None = (None, None) ∧
    prevSectionCase allSections None = (None, None).
Proof.
  unfold nextSectionCase, prevSectionCase, jsRem.
  destruct currentSectionIndex; cbn; repeat split.
Qed.

(** X15: the theme toggle runs through dark, light, high-contrast in a
    cycle of three; any other or absent theme becomes dark; the result is
    always one of the three. *)
Theorem theme_toggle_cycle (current : option string) :
  In (toggleThemeCase current) ["dark"; "light"; "high-contrast"] ∧
  Forall (λ t, toggleThemeCase (Some (toggleThemeCase (Some (toggleThemeCase (Some t)))))
               = t)
         ["dark"; "light"; "high-contrast"] ∧
  (toggleThemeCase current = "dark" ∨ current = Some "dark" ∨ current = Some "light").
Proof.
  split; [|split].
  - unfold toggleThemeCase. destruct current as [c|]; cbn; [|tauto].
    destruct (String.eqb c "dark"); [tauto|].
    destruct (String.eqb c "light"); tauto.
  - repeat constructor.
  - unfold toggleThemeCase. destruct current as [c|]; [|by left].
    destruct (String.eqb c "dark") eqn:E1.
    { apply String.eqb_eq in E1. subst. by right; left. }
    destruct (String.eqb c "light") eqn:E2.
    { apply String.eqb_eq in E2. subst. by right; right. }
    by left.
Qed.

(** X16: the actions that reach the [switch] are exactly its case labels
    other than "prev-section": every result of the classifier that has an
    action has a case, and every case but that one is reached by some hand. *)
Theorem switch_cases_reached (s : string) :
  (∃ landmarks g, classifyGesture landmarks = Some g ∧ action g = Some s)
  ↔ In s switchCases ∧ s ≠ "prev-section".
Proof.
  split.
  - intros (landmarks & g & Hg & Hs).
    assert (Hin : In g reachableGestures).
    { apply classifyGesture_Some in Hg as (f & Hf & ->).
      exact (firstMatch_not_LShape _ _ Hf). }
    cbn in Hin.
    repeat (destruct Hin as [<- | Hin];
            [cbn in Hs; first [discriminate
                              | injection Hs as <-; split; [cbn; tauto|discriminate]]|]).
    destruct Hin.
  - intros [Hin Hne]. cbn in Hin.
    destruct Hin as [<- | Hin]; [exists openHand, OpenPalm; split; vm_compute; reflexivity|].
    destruct Hin as [<- | Hin]; [exists flatHand, Fist; split; vm_compute; reflexivity|].
    destruct Hin as [<- | Hin]; [exists thumbsUpHand, ThumbsUp; split; vm_compute; reflexivity|].
    destruct Hin as [<- | Hin]; [exists thumbsDownHand, ThumbsDown; split; vm_compute; reflexivity|].
    destruct Hin as [<- | Hin]; [exists peaceHand, PeaceSign; split; vm_compute; reflexivity|].
    destruct Hin as [<- | Hin]; [exists threeFingersHand, ThreeFingers; split; vm_compute; reflexivity|].
    destruct Hin as [<- | Hin]; [exists rockOnHand, RockOn; split; vm_compute; reflexivity|].
    destruct Hin as [<- | Hin]; [exists hangLooseHand, HangLoose; split; vm_compute; reflexivity|].
    destruct Hin as [<- | Hin]; [exists pointingHand, Pointing; split; vm_compute; reflexivity|].
    destruct Hin as [<- | Hin]; [exists pinchedPointingHand, Pinch; split; vm_compute; reflexivity|].
    destruct Hin as [<- | Hin]; [exists fourFingersHand, FourFingers; split; vm_compute; reflexivity|].
    destruct Hin as [<- | Hin]; [done|].
    destruct Hin as [<- | Hin]; [exists okHand, OKSign; split; vm_compute; reflexivity|].
    destruct Hin.
Qed.

(** ** The stand-alone gesture module *)

Lemma module_classify_fingers (landmarks : list Landmark) (fe : list bool) :
  fingersExtendedOf landmarks = Some fe →
  ∃ a b c d, fe = [a; b; c; d] ∧
    GestureModule.classifyGesture landmarks
    = Some (if a && b && c && d then Some GestureModule.open_palm
            else if negb a && negb b && negb c && negb d then Some GestureModule.fist
            else if a && b && negb c && negb d then Some GestureModule.two_fingers
            else None).
Proof.
  intros Hfe.
  apply fingersExtendedOf_Some in Hfe
    as (t8 & p6 & t12 & p10 & t16 & p14 & t20 & p18
        & H8 & H6 & H12 & H10 & H16 & H14 & H20 & H18 & ->).
  eexists _, _, _, _. split; [reflexivity|].
  unfold GestureModule.classifyGesture, GestureModule.isUp.
  rewrite H8, H6, H12, H10, H16, H14, H20, H18. cbn.
  destruct (PrimFloat.ltb (y t8) (y p6)), (PrimFloat.ltb (y t12) (y p10)),
    (PrimFloat.ltb (y t16) (y p14)), (PrimFloat.ltb (y t20) (y p18)); reflexivity.
Qed.

(** X17: the two classifiers of the repository read the same four finger
    tests, so their answers on one hand are tied: "two_fingers" goes with
    "Peace Sign" and only with it, "open_palm" with Open Palm, OK Sign or
    Four Fingers, "fist" with Thumbs Up, Thumbs Down, Fist, Pinch or
    Unknown. *)
Theorem module_agrees_with_script (landmarks : list Landmark) (g : GestureResult)
    (m : option GestureModule.Gesture) :
  classifyGesture landmarks = Some g →
  GestureModule.classifyGesture landmarks = Some m →
  (g = PeaceSign ↔ m = Some GestureModule.two_fingers) ∧
  match m with
  | Some GestureModule.open_palm => In g [OpenPalm; OKSign; FourFingers]
  | Some GestureModule.fist => In g [ThumbsUp; ThumbsDown; Fist; Pinch; Unknown]
  | Some GestureModule.two_fingers => g = PeaceSign
  | None => In g [Pinch; OKSign; Pointing; ThreeFingers; RockOn; HangLoose; Unknown]
  end.
Proof.
  intros Hg Hm.
  apply classifyGesture_Some in Hg as (f & Hf & ->).
  assert (Hfe : fingersExtendedOf landmarks = Some (Rules.extended f)).
  { unfold featuresOf in Hf.
    destruct (fingersExtendedOf landmarks) as [fe|]; [|discriminate].
    destruct (thumbExtendedOf landmarks); [|discriminate].
    destruct (thumbPointingUpOf landmarks); [|discriminate].
    cbn -[landmarkDist] in Hf.
    destruct (landmarks !! 3%nat); [|discriminate].
    destruct (landmarks !! 4%nat); [|discriminate].
    destruct (landmarks !! 5%nat); [|discriminate].
    destruct (landmarks !! 8%nat); [|discriminate].
    cbn -[landmarkDist] in Hf. by injection Hf as <-. }
  apply module_classify_fingers in Hfe as (a & b & c & d & He & Hmod).
  rewrite Hmod in Hm. injection Hm as <-.
  destruct f as [e te tu up dn dist]. cbn in He. subst e.
  unfold Rules.firstMatch, Rules.rules, Rules.openPalm, Rules.thumbsUp,
    Rules.thumbsDown, Rules.fist, Rules.pinch, Rules.okSign, Rules.peaceSign,
    Rules.pointing, Rules.threeFingers, Rules.lShape, Rules.fourFingers,
    Rules.rockOn, Rules.hangLoose, Rules.extendedCount, Rules.ext.
  destruct a, b, c, d, te, tu, up, dn; cbn;
    repeat (progress (rewrite ?andb_true_r, ?andb_false_r; cbn));
    repeat (match goal with
            | |- context [if ?c then _ else _] => destruct c; cbn
            end);
    (split; [split; (discriminate || reflexivity)|]);
    first [reflexivity | repeat (first [left; reflexivity | right])].
Qed.

Lemma module_agrees_with_script_witness :
  (PeaceSign = PeaceSign ↔ Some GestureModule.two_fingers = Some GestureModule.two_fingers) ∧
  PeaceSign = PeaceSign.
Proof.
  apply (module_agrees_with_script peaceHand PeaceSign (Some GestureModule.two_fingers));
    vm_compute; reflexivity.
Defined.

(** X18: the module's classifier throws exactly on the hands with fewer
    than 21 landmarks, the same hands the script's classifier throws on. *)
Theorem module_throws_iff (landmarks : list Landmark) :
  (GestureModule.classifyGesture landmarks = None ↔ (length landmarks < 21)%nat) ∧
  (GestureModule.classifyGesture landmarks = None ↔ classifyGesture landmarks = None).
Proof.
  assert (H : GestureModule.classifyGesture landmarks = None
              ↔ (length landmarks < 21)%nat).
  { split.
    - intros Hn. destruct (decide (length landmarks < 21)%nat) as [|Hge]; [done|].
      destruct (featuresOf_total_ge landmarks) as [f Hf]; [lia|].
      unfold featuresOf in Hf.
      destruct (fingersExtendedOf landmarks) as [fe|] eqn:Hfe; [|discriminate].
      apply module_classify_fingers in Hfe as (a & b & c & d & _ & Hmod).
      rewrite Hmod in Hn. discriminate.
    - intros Hlt. unfold GestureModule.classifyGesture, GestureModule.isUp.
      assert (H20 : landmarks !! 20%nat = None) by (apply lookup_ge_None; lia).
      rewrite H20.
      destruct (landmarks !! 8%nat); [|reflexivity].
      destruct (landmarks !! 6%nat); [|reflexivity].
      destruct (landmarks !! 12%nat); [|reflexivity].
      destruct (landmarks !! 10%nat); [|reflexivity].
      destruct (landmarks !! 16%nat); [|reflexivity].
      destruct (landmarks !! 14%nat); reflexivity. }
  split; [exact H|].
  rewrite H. symmetry. apply classifyGesture_None_iff.
Qed.

Lemma sameGesture_refl (G : GestureModule.Gesture) :
  GestureModule.sameGesture G (Some G) = true.
Proof. by destruct G. Qed.

Lemma sameGesture_neq (G G' : GestureModule.Gesture) :
  G ≠ G' → GestureModule.sameGesture G (Some G') = false.
Proof. by destruct G, G'. Qed.

Lemma handleGesture_emitted (G : GestureModule.Gesture) (now : Z)
    (ms ms1 : GestureModule.State) (r : GestureModule.Gesture * string) :
  GestureModule.handleGesture G now ms = (Some r, ms1) →
  r = (G, GestureModule.gestureAction G) ∧ ms1 = GestureModule.mkState (Some G) now.
Proof.
  unfold GestureModule.handleGesture.
  destruct (_ && _); intros H; inversion H; done.
Qed.

(** X19: the module debounces with a window of 1200 ms where the script
    uses 800 ms.  After both have just dispatched at t0, a repeat of the
    same gesture after a delay d is dropped by both when d < 800, is
    dispatched by the script and dropped by the module when
    800 <= d < 1200, and is dispatched by both from 1200 on; a different
    module gesture is dispatched at once. *)
Theorem debounce_windows_differ (A : GestureResult) (G G' : GestureModule.Gesture)
    (t0 d : Z) (st st1 : GestureState) (ms ms1 : GestureModule.State)
    (r : GestureModule.Gesture * string) :
  executeGestureAction A t0 st = (Some A, st1) →
  GestureModule.handleGesture G t0 ms = (Some r, ms1) →
  G ≠ G' →
  ((executeGestureAction A (t0 + d) st1).1 = None ↔ d < 800) ∧
  ((GestureModule.handleGesture G (t0 + d) ms1).1 = None ↔ d < 1200) ∧
  (GestureModule.handleGesture G' (t0 + d) ms1).1
  = Some (G', GestureModule.gestureAction G').
Proof.
  intros Hs Hm Hne.
  apply executeGestureAction_emitted in Hs as [_ ->].
  apply handleGesture_emitted in Hm as [_ ->].
  split; [|split].
  - rewrite executeGestureAction_same by reflexivity. cbn.
    destruct (t0 + d - t0 <? 800) eqn:E; cbn.
    + apply Z.ltb_lt in E. split; [lia|done].
    + apply Z.ltb_ge in E. split; [done|lia].
  - unfold GestureModule.handleGesture, GestureModule.DEBOUNCE_MS. cbn.
    rewrite sameGesture_refl. cbn.
    destruct (t0 + d - t0 <? 1200) eqn:E; cbn.
    + apply Z.ltb_lt in E. split; [lia|done].
    + apply Z.ltb_ge in E. split; [done|lia].
  - unfold GestureModule.handleGesture. cbn.
    rewrite sameGesture_neq by congruence. reflexivity.
Qed.

Lemma debounce_windows_differ_witness :
  ((executeGestureAction Fist (0 + 900)
      (mkState "Fist" 0 ["Fist"; "Fist"; "Fist"] (Some "Fist"))).1 = None ↔ 900 < 800) ∧
  ((GestureModule.handleGesture GestureModule.fist (0 + 900)
      (GestureModule.mkState (Some GestureModule.fist) 0)).1 = None ↔ 900 < 1200) ∧
  (GestureModule.handleGesture GestureModule.open_palm (0 + 900)
      (GestureModule.mkState (Some GestureModule.fist) 0)).1
  = Some (GestureModule.open_palm, GestureModule.gestureAction GestureModule.open_palm).
Proof.
  apply (debounce_windows_differ Fist GestureModule.fist GestureModule.open_palm 0 900
           (mkState EmptyString 0 ["Fist"; "Fist"; "Fist"] (Some "Fist"))
           (mkState "Fist" 0 ["Fist"; "Fist"; "Fist"] (Some "Fist"))
           GestureModule.initial
           (GestureModule.mkState (Some GestureModule.fist) 0)
           (GestureModule.fist, "pause"));
    [reflexivity | reflexivity | discriminate].
Defined.

(** ** The gesture log *)

Lemma childrenLength_le (nodes : list LogNode) :
  (childrenLength nodes ≤ length nodes)%nat.
Proof. unfold childrenLength. apply filter_length_le. Qed.

Lemma removelast_take (nodes : list LogNode) :
  removelast nodes = take (length nodes - 1) nodes.
Proof.
  induction nodes as [|c [|c' rest] IH]; [reflexivity..|].
  change (removelast (c :: c' :: rest)) with (c :: removelast (c' :: rest)).
  rewrite IH. cbn. by rewrite Nat.sub_0_r.
Qed.

(** The loop leaves a non-empty prefix with at most ten elements, and the
    whole list when that has at most ten. *)
Lemma trimLog_spec (turns : nat) (nodes : list LogNode) :
  (length nodes ≤ turns)%nat →
  (childrenLength (trimLog turns nodes) ≤ 10)%nat ∧
  (∃ k, trimLog turns nodes = take k nodes ∧ (nodes ≠ [] → (1 ≤ k)%nat)) ∧
  ((childrenLength nodes ≤ 10)%nat → trimLog turns nodes = nodes).
Proof.
  revert nodes. induction turns as [|turns IH]; intros nodes Hlen.
  - destruct nodes; [|cbn in Hlen; lia]. cbn. split_and!; [lia| |done].
    exists 0%nat. done.
  - cbn [trimLog]. destruct (10 <? childrenLength nodes)%nat eqn:E.
    + apply Nat.ltb_lt in E. pose proof (childrenLength_le nodes) as Hle.
      assert (Hrl : length (removelast nodes) = (length nodes - 1)%nat).
      { rewrite removelast_take, length_take. lia. }
      destruct (IH (removelast nodes)) as (Hb & (k & Hk & Hk1) & _); [lia|].
      split_and!; [exact Hb| |lia].
      exists (k `min` (length nodes - 1))%nat. split.
      * rewrite Hk, removelast_take, take_take. reflexivity.
      * intros _. assert (Hne : removelast nodes ≠ []).
        { intros Hnil. rewrite Hnil in Hrl. cbn in Hrl. lia. }
        specialize (Hk1 Hne). lia.
    + apply Nat.ltb_ge in E. split_and!; [exact E| |done].
      exists (length nodes). split; [by rewrite take_ge|].
      intros Hne. destruct nodes; [done|cbn; lia].
Qed.

(** X20: the gesture log is bounded and newest-first.  After
    [addGestureLog] the log shows at most ten elements, the new entry is
    its first node, what follows is a prefix of the earlier nodes (less the
    placeholder), and nothing is dropped while the log has fewer than ten
    elements. *)
Theorem gesture_log_bounded (time label : string) (nodes : list LogNode) :
  (childrenLength (addGestureLog time label nodes) ≤ 10)%nat ∧
  (∃ k, addGestureLog time label nodes
        = LogEntry time label :: take k (removePlaceholder nodes)) ∧
  ((childrenLength (removePlaceholder nodes) < 10)%nat →
   addGestureLog time label nodes = LogEntry time label :: removePlaceholder nodes).
Proof.
  unfold addGestureLog.
  destruct (trimLog_spec (length (LogEntry time label :: removePlaceholder nodes))
              (LogEntry time label :: removePlaceholder nodes))
    as (Hb & (k & Hk & Hk1) & Hall); [lia|].
  split_and!; [exact Hb| |].
  - destruct k as [|k]; [specialize (Hk1 ltac:(done)); lia|].
    exists k. rewrite Hk. reflexivity.
  - intros Hlt. apply Hall. unfold childrenLength in *. cbn. lia.
Qed.

(** ** Voice commands *)

Lemma append_nil_l (s : string) : String.append EmptyString s = s.
Proof. reflexivity. Qed.

Lemma append_cons (c : Ascii.ascii) (a b : string) :
  String.append (String c a) b = String c (String.append a b).
Proof. reflexivity. Qed.

Lemma append_assoc (a b c : string) :
  String.append (String.append a b) c = String.append a (String.append b c).
Proof.
  induction a as [|ch a IH]; [reflexivity|].
  rewrite !append_cons. f_equal. exact IH.
Qed.

Lemma startsWith_spec (s sub : string) :
  startsWith s sub = true ↔ ∃ post, s = String.append sub post.
Proof.
  revert s. induction sub as [|c sub IH]; intros s; cbn.
  - split; [intros _; by exists s|done].
  - destruct s as [|d s].
    + split; [done|]. intros [post H]. rewrite append_cons in H. discriminate.
    + rewrite andb_true_iff, Ascii.eqb_eq, IH. split.
      * intros [-> [post ->]]. by exists post.
      * intros [post H]. rewrite append_cons in H. injection H as -> ->.
        split; [done|by exists post].
Qed.

Lemma includes_spec (s sub : string) :
  includes s sub = true
  ↔ ∃ pre post, s = String.append pre (String.append sub post).
Proof.
  induction s as [|d s IH]; cbn.
  - rewrite orb_false_r, startsWith_spec. split.
    + intros [post H]. by exists EmptyString, post.
    + intros (pre & post & H). destruct pre.
      * rewrite append_nil_l in H. by exists post.
      * rewrite append_cons in H. discriminate.
  - rewrite orb_true_iff, startsWith_spec, IH. split.
    + intros [[post H]|(pre & post & ->)].
      * by exists EmptyString, post.
      * by exists (String d pre), post.
    + intros (pre & post & H). destruct pre as [|c pre].
      * rewrite append_nil_l in H. left. by exists post.
      * rewrite append_cons in H. injection H as -> ->. right. by exists pre, post.
Qed.

(** A text that includes a string includes every part of that string. *)
Lemma includes_trans (s long short : string) :
  includes long short = true → includes s long = true → includes s short = true.
Proof.
  rewrite !includes_spec. intros (p1 & q1 & ->) (p2 & q2 & ->).
  exists (String.append p2 p1), (String.append q1 q2).
  by rewrite !append_assoc.
Qed.

Lemma includes_shadow (s long short : string) :
  includes long short = true → includes s short = false → includes s long = false.
Proof.
  intros Hls Hs. destruct (includes s long) eqn:E; [|done].
  by rewrite (includes_trans s long short Hls E) in Hs.
Qed.

(** A command that navigates does so by a live key that it includes, to a
    section that is present. *)
Lemma voiceNavCommand_Navigated (present : string → bool) (command key selector : string) :
  voiceNavCommand present command = Navigated key selector →
  In key liveKeys ∧ In (key, selector) voiceNavSections ∧
  includes command key = true ∧ present selector = true.
Proof.
  unfold voiceNavCommand. intros H.
  repeat match type of H with
         | (if testAny ?l ?c then _ else _) = _ =>
             destruct (testAny l c); [discriminate|]
         end.
  unfold voiceNavSections in H. cbn [find fst snd] in H.
  walk_includes H; cbv iota beta in H;
    try (match type of H with
         | (if present ?s then _ else _) = _ =>
             destruct (present s) eqn:Hp; [|discriminate]
         end;
         injection H as <- <-;
         first [ match goal with
                 | Hs : includes ?c ?short = false, Hl : includes ?c ?long = true |- _ =>
                     rewrite (includes_shadow c long short eq_refl Hs) in Hl; discriminate
                 end
               | (split_and!; [cbn; tauto | cbn; tauto | assumption | assumption])]).
  discriminate.
Qed.

(** X21: of the nineteen keys of [voiceNavSections] exactly eleven can
    select a section: each of the other eight contains a key that stands
    before it in the table, so the loop stops at that earlier key. *)
Theorem voice_nav_live_keys (key : string) :
  (∃ present command selector,
     voiceNavCommand present command = Navigated key selector)
  ↔ In key liveKeys.
Proof.
  split.
  - intros (present & command & selector & H).
    by apply voiceNavCommand_Navigated in H as [? _].
  - intros Hin. cbn in Hin.
    repeat (destruct Hin as [<- | Hin];
            [exists (λ _, true);
             match goal with
             | |- ∃ c s, _ = Navigated ?k s => exists k
             end; eexists; reflexivity|]).
    destruct Hin.
Qed.

(** X22: asking for "text to speech" never leads there.  A command that
    includes "text to speech" includes "speech", an earlier key, so when it
    navigates at all it goes to the features or to the speech-to-text
    section; the text-to-speech section is reached through the key "tts"
    only. *)
Theorem text_to_speech_shadowed (present : string → bool) (command : string) :
  includes command "text to speech" = true →
  (∀ key, voiceNavCommand present command ≠ Navigated key "#text-to-speech") ∧
  match voiceNavCommand present command with
  | Navigated key selector =>
      (key, selector) = ("features", "#features") ∨
      (key, selector) = ("speech", "#speech-to-text")
  | _ => True
  end.
Proof.
  intros Htts.
  assert (Hsp : includes command "speech" = true)
    by exact (includes_trans command "text to speech" "speech" eq_refl Htts).
  assert (Hout : match voiceNavCommand present command with
                 | Navigated key selector =>
                     (key, selector) = ("features", "#features") ∨
                     (key, selector) = ("speech", "#speech-to-text")
                 | _ => True
                 end).
  { unfold voiceNavCommand.
    repeat match goal with
           | |- context [if testAny ?l ?c then _ else _] =>
               destruct (testAny l c); [exact I|]
           end.
    unfold voiceNavSections. cbn [find fst snd]. rewrite Hsp.
    destruct (includes command "features"); cbv iota beta;
      match goal with
      | |- context [if present ?s then _ else _] => destruct (present s)
      end; auto. }
  split; [|exact Hout].
  intros key Hk. rewrite Hk in Hout. destruct Hout as [H|H]; discriminate.
Qed.

Lemma text_to_speech_shadowed_witness :
  (∀ key, voiceNavCommand (λ _, true) "open text to speech"
          ≠ Navigated key "#text-to-speech") ∧
  match voiceNavCommand (λ _, true) "open text to speech" with
  | Navigated key selector =>
      (key, selector) = ("features", "#features") ∨
      (key, selector) = ("speech", "#speech-to-text")
  | _ => True
  end.
Proof.
  apply (text_to_speech_shadowed (λ _, true) "open text to speech").
  vm_compute. reflexivity.
Defined.

(** The command of the witness does navigate, to the speech-to-text
    section. *)
Example open_text_to_speech :
  voiceNavCommand (λ _, true) "open text to speech"
  = Navigated "speech" "#speech-to-text".
Proof. vm_compute. reflexivity. Qed.

(** A reported keyword is a live one that the text includes, with the action
    of its row. *)
Lemma matchCommand_Some (text a k : string) :
  matchCommand text = Some (a, k) →
  In k liveKeywords ∧ includes text k = true ∧
  ∃ keywords, In (keywords, a) COMMANDS ∧ In k keywords.
Proof.
  intros H. unfold matchCommand, COMMANDS in H.
  cbn [matchCommands matchKeywords] in H.
  walk_includes H; cbv iota beta in H;
    try (injection H as <- <-;
         first [ match goal with
                 | Hs : includes ?c ?short = false, Hl : includes ?c ?long = true |- _ =>
                     rewrite (includes_shadow c long short eq_refl Hs) in Hl; discriminate
                 end
               | (split_and!; [cbn; tauto | assumption |]);
                 eexists; split; [unfold COMMANDS; cbn; eauto 12 | cbn; tauto] ]).
  discriminate.
Qed.

(** X23: [matchCommand] can report exactly 23 of the 28 keywords of its
    table: "read aloud", "read out", "go next", "say again" and
    "high contrast" each contain an earlier keyword of their own row.  It
    returns nothing exactly when the text includes no keyword. *)
Theorem matchCommand_keywords (text k : string) :
  ((∃ t a, matchCommand t = Some (a, k)) ↔ In k liveKeywords) ∧
  (matchCommand text = None ↔
   Forall (λ row : list string * string,
             Forall (λ kw, includes text kw = false) row.1) COMMANDS).
Proof.
  split; [split|split].
  - intros (t & a & H). by apply matchCommand_Some in H as [? _].
  - intros Hin. cbn in Hin.
    repeat (destruct Hin as [<- | Hin];
            [match goal with
             | |- ∃ t a, _ = Some (a, ?kw) => exists kw
             end; eexists; reflexivity|]).
    destruct Hin.
  - intros H. unfold matchCommand, COMMANDS in H.
    cbn [matchCommands matchKeywords] in H.
    walk_includes H; cbv iota beta in H; try discriminate.
    unfold COMMANDS. repeat constructor; cbn; assumption.
  - intros H. unfold COMMANDS in H.
    repeat match goal with
           | H : Forall _ (_ :: _) |- _ => apply Forall_cons in H as [? H]
           end.
    cbn [fst] in *.
    repeat match goal with
           | H : Forall _ (_ :: _) |- _ => apply Forall_cons in H as [? H]
           end.
    unfold matchCommand, COMMANDS. cbn [matchCommands matchKeywords].
    repeat match goal with
           | H : includes text ?kw = false |- _ => rewrite H; clear H
           end.
    reflexivity.
Qed.

(** X24: an utterance that includes "read" is never taken as a stop
    command: rows are tried in table order and the read row stands before
    the stop row, so "stop reading" is answered with the action "read". *)
Theorem read_shadows_stop (text : string) :
  includes text "read" = true →
  ∃ a k, matchCommand text = Some (a, k) ∧ (a = "summarize" ∨ a = "read") ∧ a ≠ "stop".
Proof.
  intros Hr. unfold matchCommand, COMMANDS. cbn [matchCommands matchKeywords].
  rewrite Hr.
  destruct (includes text "summarize"); [eexists _, _; split_and!; [done|by left|done]|].
  destruct (includes text "summary"); [eexists _, _; split_and!; [done|by left|done]|].
  destruct (includes text "sum up"); [eexists _, _; split_and!; [done|by left|done]|].
  eexists _, _; split_and!; [done|by right|done].
Qed.

Lemma read_shadows_stop_witness :
  ∃ a k, matchCommand "stop reading" = Some (a, k) ∧
         (a = "summarize" ∨ a = "read") ∧ a ≠ "stop".
Proof.
  apply (read_shadows_stop "stop reading"). vm_compute. reflexivity.
Defined.
